(** * Network-File-Share: the request handler of the HTTP file server

    A shallow embedding of [main]'s root handler, [listDir] and [sendFile]
    of [R1_EN.go] (and of its Chinese-language twin), together with the Go
    library functions they call, on a Unix host (path separator [/]).

    Go strings are byte sequences: they are modelled by [string], whose
    characters are the 256 values of [ascii]. *)

From Stdlib Require Import String Ascii List Bool Arith ZArith Lia DecimalString.
Import ListNotations.
Local Open Scope string_scope.
Local Open Scope list_scope.

(** ** Bytes and strings *)

Definition dq : string := String "034"%char EmptyString.
Definition nl : string := String "010"%char EmptyString.

(** [strings.Contains]. *)
Fixpoint Contains (s substr : string) : bool :=
  prefix substr s ||
  match s with
  | EmptyString => false
  | String _ s' => Contains s' substr
  end.

(** [strings.ContainsRune] for a one-byte rune. *)
Fixpoint ContainsByte (s : string) (c : ascii) : bool :=
  match s with
  | EmptyString => false
  | String d s' => Ascii.eqb d c || ContainsByte s' c
  end.

(** [strings.TrimPrefix]. *)
Definition TrimPrefix (s pre : string) : string :=
  if prefix pre s
  then substring (String.length pre) (String.length s - String.length pre) s
  else s.

(** [strings.Join]. *)
Fixpoint strings_Join (elems : list string) (sep : string) : string :=
  match elems with
  | [] => ""
  | [e] => e
  | e :: rest => e ++ sep ++ strings_Join rest sep
  end.

(** Concatenation of the pieces written one after the other. *)
Fixpoint concat_all (pieces : list string) : string :=
  match pieces with
  | [] => ""
  | p :: rest => p ++ concat_all rest
  end.

(** [strings.Cut s ":"]: the text before the first [sep] byte, when there is one. *)
Fixpoint CutBefore (s : string) (sep : ascii) : option string :=
  match s with
  | EmptyString => None
  | String c s' =>
      if Ascii.eqb c sep then Some ""
      else option_map (String c) (CutBefore s' sep)
  end.

Definition lower (c : ascii) : ascii :=
  let n := nat_of_ascii c in
  if ((65 <=? n) && (n <=? 90))%nat then ascii_of_nat (n + 32) else c.

Fixpoint map_string (f : ascii -> ascii) (s : string) : string :=
  match s with
  | EmptyString => EmptyString
  | String c s' => String (f c) (map_string f s')
  end.

(** [strings.EqualFold], for an ASCII second argument. *)
Definition EqualFold (s t : string) : bool :=
  map_string lower s =? map_string lower t.

(** ** path/filepath (Unix) *)

Module filepath.

Definition Separator : ascii := "/"%char.

(** The elements of a path: the text between separators. *)
Fixpoint elements (path : string) : list string :=
  match path with
  | EmptyString => [""]
  | String c rest =>
      if Ascii.eqb c Separator then "" :: elements rest
      else match elements rest with
           | [] => [String c ""]
           | e :: es => String c e :: es
           end
  end.

Definition rooted (path : string) : bool :=
  match path with
  | String c _ => Ascii.eqb c Separator
  | EmptyString => false
  end.

(** One element of [Clean]'s scan.  [out] holds the elements written so far,
    last one first.  An empty element and [.] are dropped; [..] removes the
    last element written when there is one that is not itself [..], is
    dropped at the root of a rooted path, and is kept otherwise. *)
Definition clean_step (is_rooted : bool) (out : list string) (e : string) : list string :=
  if (e =? "") || (e =? ".") then out
  else if e =? ".." then
    match out with
    | top :: below =>
        if top =? ".." then (if is_rooted then out else e :: out) else below
    | [] => if is_rooted then [] else [e]
    end
  else e :: out.

Definition clean_elements (is_rooted : bool) (es : list string) : list string :=
  rev (fold_left (clean_step is_rooted) es []).

(** [filepath.Clean]: the shortest path equivalent to [path] by purely
    lexical processing; the empty result is [.]. *)
Definition Clean (path : string) : string :=
  let is_rooted := rooted path in
  let out := strings_Join (clean_elements is_rooted (elements path)) "/" in
  let out := if is_rooted then String Separator out else out in
  if out =? "" then "." else out.

(** [filepath.Join]: the elements from the first non-empty one on, joined by
    the separator and cleaned; the empty string when there is none. *)
Fixpoint Join (elem : list string) : string :=
  match elem with
  | [] => ""
  | e :: rest =>
      if e =? "" then Join rest else Clean (strings_Join elem "/")
  end.

(** The prefix of [path] up to and including its last separator. *)
Fixpoint upto_last_separator (path : string) : string :=
  match path with
  | EmptyString => ""
  | String c rest =>
      if ContainsByte path Separator then String c (upto_last_separator rest)
      else ""
  end.

(** [filepath.Dir]. *)
Definition Dir (path : string) : string := Clean (upto_last_separator path).

(** [filepath.Base]: the last element of the path. *)
Definition Base (path : string) : string :=
  match rev (filter (fun e => negb (e =? "")) (elements path)) with
  | e :: _ => e
  | [] => if path =? "" then "." else "/"
  end.

(** [filepath.ToSlash]: the separator is already a slash. *)
Definition ToSlash (path : string) : string := path.

End filepath.

(** ** net/url *)

Module url.

Definition is_alnum (c : ascii) : bool :=
  let n := nat_of_ascii c in
  (((97 <=? n) && (n <=? 122)) || ((65 <=? n) && (n <=? 90))
   || ((48 <=? n) && (n <=? 57)))%nat.

(** [shouldEscape c encodePathSegment]. *)
Definition shouldEscape (c : ascii) : bool :=
  if is_alnum c then false
  else if ContainsByte "-_.~" c then false
  else if ContainsByte "$&+:=@" c then false
  else true.

Definition upperhex (n : nat) : ascii :=
  nth n (list_ascii_of_string "0123456789ABCDEF") "0"%char.

(** [url.PathEscape]. *)
Fixpoint PathEscape (s : string) : string :=
  match s with
  | EmptyString => EmptyString
  | String c rest =>
      if shouldEscape c then
        String "%"%char (String (upperhex (nat_of_ascii c / 16))
                   (String (upperhex (nat_of_ascii c mod 16)) (PathEscape rest)))
      else String c (PathEscape rest)
  end.

End url.

(** ** html *)

Module html.

Definition escape_byte (c : ascii) : string :=
  if Ascii.eqb c "&"%char then "&amp;"
  else if Ascii.eqb c "'"%char then "&#39;"
  else if Ascii.eqb c "<"%char then "&lt;"
  else if Ascii.eqb c ">"%char then "&gt;"
  else if Ascii.eqb c "034"%char then "&#34;"
  else String c "".

(** [html.EscapeString]. *)
Fixpoint EscapeString (s : string) : string :=
  match s with
  | EmptyString => EmptyString
  | String c rest => escape_byte c ++ EscapeString rest
  end.

End html.

(** ** strconv *)

Module strconv.

(** [strconv.FormatInt n 10]. *)
Definition FormatInt (n : Z) : string := NilZero.string_of_int (Z.to_int n).

End strconv.

(** ** html/template: the escapers of the contexts the listing template uses *)

Module template.

(** The replacement character U+FFFD in UTF-8. *)
Definition replacement_char : string :=
  String "239"%char (String "191"%char (String "189"%char EmptyString)).

(** [htmlReplacementTable]. *)
Definition htmlReplacement (c : ascii) : string :=
  if Ascii.eqb c "000"%char then replacement_char
  else if Ascii.eqb c "034"%char then "&#34;"
  else if Ascii.eqb c "&"%char then "&amp;"
  else if Ascii.eqb c "'"%char then "&#39;"
  else if Ascii.eqb c "+"%char then "&#43;"
  else if Ascii.eqb c "<"%char then "&lt;"
  else if Ascii.eqb c ">"%char then "&gt;"
  else String c "".

(** [htmlReplacer s htmlReplacementTable true]: every key of the table is a
    single byte below 128, and other runes are copied, so the replacement
    works byte by byte. *)
Fixpoint htmlReplacer (s : string) : string :=
  match s with
  | EmptyString => EmptyString
  | String c rest => htmlReplacement c ++ htmlReplacer rest
  end.

(** On a plain string the escapers of element text, of RCDATA (the title)
    and of a quoted attribute value all use the same table. *)
Definition htmlEscaper : string -> string := htmlReplacer.
Definition rcdataEscaper : string -> string := htmlReplacer.
Definition attrEscaper : string -> string := htmlReplacer.

Definition filterFailsafe : string := "ZgotmplZ".

(** [isSafeURL]: a URL is refused when the text before its first colon has
    no slash and is not one of the schemes http, https, mailto. *)
Definition isSafeURL (s : string) : bool :=
  match CutBefore s ":"%char with
  | Some protocol =>
      if negb (ContainsByte protocol "/"%char) then
        EqualFold protocol "http" || EqualFold protocol "https"
        || EqualFold protocol "mailto"
      else true
  | None => true
  end.

(** [urlFilter]. *)
Definition urlFilter (s : string) : string :=
  if isSafeURL s then s else "#" ++ filterFailsafe.

Definition isHex (c : ascii) : bool :=
  let n := nat_of_ascii c in
  (((48 <=? n) && (n <=? 57)) || ((97 <=? n) && (n <=? 102))
   || ((65 <=? n) && (n <=? 70)))%nat.

Definition lowerhex (n : nat) : ascii :=
  nth n (list_ascii_of_string "0123456789abcdef") "0"%char.

Definition valid_escape (rest : string) : bool :=
  match rest with
  | String a (String b _) => isHex a && isHex b
  | _ => false
  end.

(** The bytes [processURLOnto] copies when it normalizes. *)
Definition url_keeps (c : ascii) (rest : string) : bool :=
  ContainsByte "!#$&*+,/:;=?@[]" c
  || ContainsByte "-._~" c
  || (Ascii.eqb c "%"%char && valid_escape rest)
  || url.is_alnum c.

(** [urlNormalizer]. *)
Fixpoint urlNormalizer (s : string) : string :=
  match s with
  | EmptyString => EmptyString
  | String c rest =>
      if url_keeps c rest then String c (urlNormalizer rest)
      else String "%"%char
             (String (lowerhex (nat_of_ascii c / 16))
                (String (lowerhex (nat_of_ascii c mod 16)) (urlNormalizer rest)))
  end.

(** The pipeline of [href="{{.X}}"]: the action starts the URL, so the
    filter runs first, then the normalizer and the attribute escaper. *)
Definition href_value (s : string) : string :=
  attrEscaper (urlNormalizer (urlFilter s)).

End template.

(** ** The view model of [listDir] *)

Record FileInfo := {
  URL : string;    (* URL-encoded path *)
  Name : string;   (* HTML-escaped name *)
  IsDir : bool     (* Directory flag *)
}.

Record TemplateData := {
  RelPath : string;
  ParentPath : string;
  HasParent : bool;
  Files : list FileInfo
}.

(** ** [dirListTemplate] of R1_EN.go

    Parsing the template replaces each CSS comment of the style sheet by one
    space; the rest of the text is written as it stands. *)

Definition href_attr (u : string) : string :=
  "<a href=" ++ dq ++ template.href_value u ++ dq ++ ">".

Definition parent_link_EN (data : TemplateData) : string :=
  if HasParent data
  then "<li>" ++ href_attr (ParentPath data) ++ ".. (Parent Directory)</a></li>"
  else "".

Definition file_item_EN (f : FileInfo) : string :=
  "
            <li>" ++ href_attr (URL f)
  ++ (if IsDir f
      then "<dir>" ++ template.htmlEscaper (Name f) ++ "</dir>"
      else "<file>" ++ template.htmlEscaper (Name f) ++ "</file>")
  ++ "</a></li>
        ".

Definition dirListTemplate_EN (data : TemplateData) : string :=
  "
<html>
<head>
    <meta charset=" ++ dq ++ "UTF-8" ++ dq ++ ">
    <title>File Server - " ++ template.rcdataEscaper (RelPath data) ++ "</title>
    <style>
        li { font-family: monospace; }
        dir { color: blue; }   
        file { color: green; }  
    </style>
</head>
<body>
    <h1>Directory Listing: " ++ template.htmlEscaper (RelPath data) ++ "</h1>
    <ul>
        " ++ parent_link_EN data ++ "
        " ++ concat_all (map file_item_EN (Files data)) ++ "
    </ul>
</body>
</html>
".

(** ** [dirListTemplate] of the Chinese-language build

    Parsing drops the two HTML comments and replaces the CSS comment by one
    space. *)

Definition parent_link_ZH (data : TemplateData) : string :=
  if HasParent data
  then "<li>" ++ href_attr (ParentPath data) ++ "↑ 返回上级</a></li>"
  else "".

Definition file_item_ZH (f : FileInfo) : string :=
  "
            <li>" ++ href_attr (URL f) ++ "
                "
  ++ (if IsDir f
      then "<dir>📁 " ++ template.htmlEscaper (Name f) ++ "</dir>
                "
      else "<file>📄 " ++ template.htmlEscaper (Name f) ++ "</file>")
  ++ "
            </a></li>
        ".

Definition dirListTemplate_ZH (data : TemplateData) : string :=
  "

<link href=" ++ dq
  ++ "https://cdn.jsdelivr.net/npm/harmonyos_sans_web@latest/css/harmonyos_sans.css"
  ++ dq ++ " rel=" ++ dq ++ "stylesheet" ++ dq ++ ">

<link href=" ++ dq ++ "https://fonts.loli.net/css?family=Noto+Sans+SC"
  ++ dq ++ " rel=" ++ dq ++ "stylesheet" ++ dq ++ ">

<html>
<head>
    <meta charset=" ++ dq ++ "UTF-8" ++ dq ++ ">
    <title>文件服务 - " ++ template.rcdataEscaper (RelPath data) ++ "</title>
    <style>
         
        li { 
            font-family: " ++ dq ++ "HarmonyOS Sans" ++ dq ++ ", "
  ++ dq ++ "思源黑体" ++ dq ++ ", sans-serif;
            font-size:14px; 
            line-height:1.8;
        }
        dir { color: #2196F3; }
        file { color: #4CAF50; }
    </style>
</head>
<body>
    <h2>📂 当前目录：" ++ template.htmlEscaper (RelPath data) ++ "</h2>
    <ul>
        " ++ parent_link_ZH data ++ "
        " ++ concat_all (map file_item_ZH (Files data)) ++ "
    </ul>
</body>
</html>
".

(** ** The operating system, as the handler sees it *)

(** A Go [error]; [%v] prints its message. *)
Inductive error := Err (msg : string).

(** [fs.FileInfo], as far as the handler reads it. *)
Record fs_FileInfo := {
  fi_Name : string;
  fi_Size : Z;
  fi_IsDir : bool
}.

(** [fs.DirEntry]. *)
Record DirEntry := {
  de_Name : string;
  de_IsDir : bool
}.

(** The system calls of one request.  [W] is the state of the world, which
    other processes may change between two calls, and [F] an open file.
    [io_Copy] returns the bytes that reached the response and the error that
    stopped the copy, if any. *)
Record OS (W F : Type) := {
  os_Open : string -> W -> (error + F) * W;
  file_Stat : F -> W -> (error + fs_FileInfo) * W;
  file_Close : F -> W -> W;
  os_ReadDir : string -> W -> (error + list DirEntry) * W;
  io_Copy : F -> W -> (string * option error) * W
}.

Arguments os_Open {W F}.
Arguments file_Stat {W F}.
Arguments file_Close {W F}.
Arguments os_ReadDir {W F}.
Arguments io_Copy {W F}.

(** ** net/http: the response, as the client receives it *)

Module http.

Definition StatusOK : nat := 200.
Definition StatusForbidden : nat := 403.
Definition StatusNotFound : nat := 404.
Definition StatusInternalServerError : nat := 500.

Record Request := {
  Method : string;
  URL_Path : string
}.

(** [wroteHeader] is the status line once it is written; header fields set
    after that point are not sent. *)
Record ResponseWriter := {
  header : list (string * string);
  wroteHeader : option nat;
  written : string
}.

Definition new_response : ResponseWriter :=
  {| header := []; wroteHeader := None; written := "" |}.

Fixpoint Header_Del (key : string) (h : list (string * string)) : list (string * string) :=
  match h with
  | [] => []
  | (k, v) :: rest => if k =? key then Header_Del key rest else (k, v) :: Header_Del key rest
  end.

Fixpoint Header_Get (key : string) (h : list (string * string)) : option string :=
  match h with
  | [] => None
  | (k, v) :: rest => if k =? key then Some v else Header_Get key rest
  end.

(** [w.Header().Set(key, value)]. *)
Definition Header_Set (key value : string) (w : ResponseWriter) : ResponseWriter :=
  match wroteHeader w with
  | Some _ => w
  | None => {| header := (key, value) :: Header_Del key (header w);
               wroteHeader := None; written := written w |}
  end.

(** [w.WriteHeader(code)]. *)
Definition WriteHeader (code : nat) (w : ResponseWriter) : ResponseWriter :=
  match wroteHeader w with
  | Some _ => w
  | None => {| header := header w; wroteHeader := Some code; written := written w |}
  end.

(** [w.Write(p)]: the first write sends status 200 when none was sent. *)
Definition Write (p : string) (w : ResponseWriter) : ResponseWriter :=
  let w := WriteHeader StatusOK w in
  {| header := header w; wroteHeader := wroteHeader w; written := written w ++ p |}.

(** [http.Error]. *)
Definition Error (msg : string) (code : nat) (w : ResponseWriter) : ResponseWriter :=
  Write (msg ++ nl)
    (WriteHeader code
       (Header_Set "X-Content-Type-Options" "nosniff"
          (Header_Set "Content-Type" "text/plain; charset=utf-8" w))).

(** The status the client receives: 200 when the handler wrote none. *)
Definition status (w : ResponseWriter) : nat :=
  match wroteHeader w with
  | Some code => code
  | None => StatusOK
  end.

End http.

(** ** The log *)

(** One constructor per [log.Printf] of the handler, with the values it
    prints; time stamps and the duration of [[COMPLETE]] are left out. *)
Inductive LogEntry :=
| LogRequest (method reqPath : string)
| LogComplete (method reqPath : string)
| LogProcessing (reqPath fullPath : string)
| LogOpenFailed (err : error)
| LogStatFailed (err : error)
| LogDirReadError (err : error)
| LogOpenError (err : error)
| LogTransferError (err : error).

(** ** What differs between the two builds of the server *)

Record Build := {
  not_found_text : string;      (* dispatcher, open failed *)
  stat_error_text : string;     (* dispatcher, stat failed *)
  dir_error_text : string;      (* listDir, read failed *)
  dir_error_code : nat;
  open_error_text : string;     (* sendFile, open failed *)
  dirListTemplate : TemplateData -> string
}.

(** R1_EN.go *)
Definition R1_EN : Build := {|
  not_found_text := "404 Not Found";
  stat_error_text := "500 Internal Server Error";
  dir_error_text := "403 Forbidden";
  dir_error_code := http.StatusForbidden;
  open_error_text := "404 Not Found";
  dirListTemplate := dirListTemplate_EN
|}.

(** The Chinese-language build (src/unnamed/part_000). *)
Definition R1_ZH : Build := {|
  not_found_text := "文件未找到";
  stat_error_text := "文件访问错误";
  dir_error_text := "目录不可读";
  dir_error_code := http.StatusInternalServerError;
  open_error_text := "文件未找到";
  dirListTemplate := dirListTemplate_ZH
|}.

(** ** The handler *)

(** The state one request threads through: the world, the response and the
    log. *)
Record State (W : Type) := {
  world : W;
  resp : http.ResponseWriter;
  logged : list LogEntry
}.

Arguments world {W}.
Arguments resp {W}.
Arguments logged {W}.

Definition M (W A : Type) : Type := State W -> A * State W.

Definition ret {W A} (a : A) : M W A := fun s => (a, s).

Definition bind {W A B} (m : M W A) (k : A -> M W B) : M W B :=
  fun s => let (a, s') := m s in k a s'.

Declare Scope handler_scope.
Delimit Scope handler_scope with handler.
Notation "x <- m ;; k" := (bind m (fun x => k))
  (at level 61, m at next level, right associativity) : handler_scope.
Notation "m ;; k" := (bind m (fun _ => k))
  (at level 61, right associativity) : handler_scope.

(** [defer d] before [body]: [d] runs when [body] has returned. *)
Definition defer {W} (d : M W unit) (body : M W unit) : M W unit :=
  bind body (fun _ => d).

Definition log_Printf {W} (e : LogEntry) : M W unit :=
  fun s => (tt, {| world := world s; resp := resp s; logged := logged s ++ [e] |}).

Definition respond {W} (f : http.ResponseWriter -> http.ResponseWriter) : M W unit :=
  fun s => (tt, {| world := world s; resp := f (resp s); logged := logged s |}).

Definition syscall {W A} (call : W -> A * W) : M W A :=
  fun s => let (a, w') := call (world s) in
           (a, {| world := w'; resp := resp s; logged := logged s |}).

(** The data [listDir] hands to the template. *)
Definition listing (relPath : string) (files : list DirEntry) : TemplateData := {|
  RelPath := html.EscapeString relPath;
  HasParent := negb (relPath =? "");
  ParentPath := url.PathEscape (filepath.ToSlash (filepath.Dir relPath));
  Files :=
    map (fun file =>
           let name := de_Name file in
           let urlPath :=
             url.PathEscape (filepath.ToSlash (filepath.Join [relPath; name])) in
           {| URL := urlPath;
              Name := html.EscapeString name;
              IsDir := de_IsDir file |})
        files
|}.

(** The path sanitization of the root handler. *)
Definition cleanedPath (reqPath : string) : string :=
  filepath.Clean (TrimPrefix reqPath "/").

Definition fullPath (rootDir reqPath : string) : string :=
  filepath.Join [rootDir; cleanedPath reqPath].

Section Handler.

Context {W F : Type}.
Variable os : OS W F.
Variable build : Build.
Variable rootDir : string.

Local Open Scope handler_scope.

(** [listDir] *)
Definition listDir (dirPath relPath : string) : M W unit :=
  res <- syscall (os_ReadDir os dirPath) ;;
  match res with
  | inl err =>
      log_Printf (LogDirReadError err) ;;
      respond (http.Error (dir_error_text build) (dir_error_code build))
  | inr files =>
      let data := listing relPath files in
      respond (http.Header_Set "Content-Type" "text/html; charset=utf-8") ;;
      respond (http.Write (dirListTemplate build data))
  end.

Definition content_disposition (fileName : string) : string :=
  let encodedName := url.PathEscape fileName in
  "attachment; filename=" ++ dq ++ encodedName ++ dq
  ++ "; filename*=UTF-8''" ++ encodedName.

(** [sendFile] *)
Definition sendFile (filePath fileName : string) (fileSize : Z) : M W unit :=
  res <- syscall (os_Open os filePath) ;;
  match res with
  | inl err =>
      log_Printf (LogOpenError err) ;;
      respond (http.Error (open_error_text build) http.StatusNotFound)
  | inr file =>
      defer (syscall (fun w => (tt, file_Close os file w)))
        (respond (http.Header_Set "Content-Disposition" (content_disposition fileName)) ;;
         respond (http.Header_Set "Content-Type" "application/octet-stream") ;;
         respond (http.Header_Set "Content-Length" (strconv.FormatInt fileSize)) ;;
         copied <- syscall (io_Copy os file) ;;
         respond (http.Write (fst copied)) ;;
         match snd copied with
         | Some err => log_Printf (LogTransferError err)
         | None => ret tt
         end)
  end.

(** The root handler registered in [main]. *)
Definition handler (r : http.Request) : M W unit :=
  let reqPath := http.URL_Path r in
  log_Printf (LogRequest (http.Method r) reqPath) ;;
  defer (log_Printf (LogComplete (http.Method r) reqPath))
    (let path := TrimPrefix reqPath "/" in
     let cleanedPath := filepath.Clean path in
     let fullPath := filepath.Join [rootDir; cleanedPath] in
     log_Printf (LogProcessing reqPath fullPath) ;;
     res <- syscall (os_Open os fullPath) ;;
     match res with
     | inl err =>
         log_Printf (LogOpenFailed err) ;;
         respond (http.Error (not_found_text build) http.StatusNotFound)
     | inr file =>
         defer (syscall (fun w => (tt, file_Close os file w)))
           (res <- syscall (file_Stat os file) ;;
            match res with
            | inl err =>
                log_Printf (LogStatFailed err) ;;
                respond (http.Error (stat_error_text build)
                           http.StatusInternalServerError)
            | inr fileInfo =>
                if fi_IsDir fileInfo
                then listDir fullPath cleanedPath
                else sendFile fullPath (fi_Name fileInfo) (fi_Size fileInfo)
            end)
     end).

(** One request served from the world [w]. *)
Definition serve (r : http.Request) (w : W) : State W :=
  snd (handler r {| world := w; resp := http.new_response; logged := [] |}).

End Handler.

(** ** Two worlds to run the handler in *)

(** *** A file tree that nothing else touches during the request *)

Module memfs.

#[warnings="-register-all"]
Inductive Node :=
| RegularFile (content : string)
| Directory (children : list (string * Node)).

Fixpoint child (name : string) (children : list (string * Node)) : option Node :=
  match children with
  | [] => None
  | (n, node) :: rest => if n =? name then Some node else child name rest
  end.

Fixpoint walk (elems : list string) (node : Node) : option Node :=
  match elems with
  | [] => Some node
  | e :: rest =>
      match node with
      | Directory children =>
          match child e children with
          | Some node' => walk rest node'
          | None => None
          end
      | RegularFile _ => None
      end
  end.

(** The node a path names, resolved from the root of the tree. *)
Definition lookup (root : Node) (path : string) : option Node :=
  walk (filepath.clean_elements true (filepath.elements path)) root.

(** An open file: the name it was opened under and its node.  [os.ReadDir]
    returns the entries sorted by name; a directory of the tree keeps its
    children in that order. *)
Definition File : Type := string * Node.

Definition stat (f : File) : fs_FileInfo :=
  match snd f with
  | RegularFile content =>
      {| fi_Name := filepath.Base (fst f);
         fi_Size := Z.of_nat (String.length content);
         fi_IsDir := false |}
  | Directory _ =>
      {| fi_Name := filepath.Base (fst f); fi_Size := 4096; fi_IsDir := true |}
  end.

Definition entry (c : string * Node) : DirEntry :=
  {| de_Name := fst c;
     de_IsDir := match snd c with Directory _ => true | RegularFile _ => false end |}.

Definition os : OS Node File := {|
  os_Open := fun path root =>
    match lookup root path with
    | Some node => (inr (path, node), root)
    | None => (inl (Err ("open " ++ path ++ ": no such file or directory")), root)
    end;
  file_Stat := fun f root => (inr (stat f), root);
  file_Close := fun _ root => root;
  os_ReadDir := fun path root =>
    match lookup root path with
    | Some (Directory children) => (inr (map entry children), root)
    | Some (RegularFile _) =>
        (inl (Err ("open " ++ path ++ ": not a directory")), root)
    | None => (inl (Err ("open " ++ path ++ ": no such file or directory")), root)
    end;
  io_Copy := fun f root =>
    match snd f with
    | RegularFile content => ((content, None), root)
    | Directory _ => (("", Some (Err ("read " ++ fst f ++ ": is a directory"))), root)
    end
|}.

End memfs.

(** *** A world that answers each call from a script

    The world is the list of the answers still to come; a call that finds no
    answer of its kind fails with an I/O error. *)

Module scripted.

Inductive Reply :=
| Opened (r : error + nat)
| Statted (r : error + fs_FileInfo)
| DirRead (r : error + list DirEntry)
| Copied (r : string * option error).

Definition eio : error := Err "input/output error".

Definition os : OS (list Reply) nat := {|
  os_Open := fun _ w =>
    match w with
    | Opened r :: w' => (r, w')
    | _ => (inl eio, w)
    end;
  file_Stat := fun _ w =>
    match w with
    | Statted r :: w' => (r, w')
    | _ => (inl eio, w)
    end;
  file_Close := fun _ w => w;
  os_ReadDir := fun _ w =>
    match w with
    | DirRead r :: w' => (r, w')
    | _ => (inl eio, w)
    end;
  io_Copy := fun _ w =>
    match w with
    | Copied r :: w' => (r, w')
    | _ => (("", Some eio), w)
    end
|}.

End scripted.

(** ** Examples *)

Definition GET (path : string) : http.Request :=
  {| http.Method := "GET"; http.URL_Path := path |}.

Definition CONNECT (path : string) : http.Request :=
  {| http.Method := "CONNECT"; http.URL_Path := path |}.

Definition share : memfs.Node :=
  memfs.Directory
    [("srv", memfs.Directory
       [("share", memfs.Directory
          [("<script>.txt", memfs.RegularFile "");
           ("a:b.txt", memfs.RegularFile "colon");
           ("docs", memfs.Directory
              [("a:b", memfs.RegularFile "x");
               ("notes.txt", memfs.RegularFile "hello, world")])])]);
     ("etc", memfs.Directory [("passwd", memfs.RegularFile "root:x:0:0")])].

(** ** Names and cleaned paths *)

(** A string without separator. *)
Definition sep_free (e : string) : bool := negb (ContainsByte e "/"%char).

(** A name a directory entry can have. *)
Definition entry_name (e : string) : bool :=
  negb ((e =? "") || (e =? ".") || (e =? "..")) && sep_free e.

(** The shape of what [Clean] has written of a path that is not rooted: [..]
    elements first, then elements that are names. *)
Inductive stack_ok : list string -> Prop :=
| ok_dots out : Forall (eq "..") out -> stack_ok out
| ok_real e out :
    (e =? "") || (e =? ".") || (e =? "..") = false ->
    stack_ok out -> stack_ok (e :: out).

(** What [sendFile] logs after the copy. *)
Definition transfer_log (failure : option error) : list LogEntry :=
  match failure with
  | Some err => [LogTransferError err]
  | None => []
  end.

(** * More of the program *)




(** *** A world that records which files are opened and closed *)

Module traced.

Inductive Event (F : Type) :=
| Opened (f : F)
| Closed (f : F).

Arguments Opened {F}.
Arguments Closed {F}.

(** The calls of [base], with every successful open and every close added
    to a record kept beside the world. *)
Definition os {W F : Type} (base : OS W F) : OS (W * list (Event F)) F := {|
  os_Open := fun path s =>
    match os_Open base path (fst s) with
    | (inr f, w') => (inr f, (w', snd s ++ [Opened f]))
    | (inl err, w') => (inl err, (w', snd s))
    end;
  file_Stat := fun f s =>
    let (res, w') := file_Stat base f (fst s) in (res, (w', snd s));
  file_Close := fun f s => (file_Close base f (fst s), snd s ++ [Closed f]);
  os_ReadDir := fun path s =>
    let (res, w') := os_ReadDir base path (fst s) in (res, (w', snd s));
  io_Copy := fun f s =>
    let (res, w') := io_Copy base f (fst s) in (res, (w', snd s))
|}.

(** Files closed in the reverse order of their opening, each one once. *)
Inductive nested {F : Type} : list (Event F) -> Prop :=
| nested_nil : nested []
| nested_wrap f inner : nested inner -> nested (Opened f :: inner ++ [Closed f]).

End traced.

(** How often a byte occurs in a string. *)
Fixpoint count_byte (c : ascii) (s : string) : nat :=
  match s with
  | EmptyString => 0
  | String d s' => (if Ascii.eqb d c then 1 else 0) + count_byte c s'
  end.

Definition hex_value (c : ascii) : nat :=
  let n := nat_of_ascii c in
  if (n <=? 57)%nat then n - 48 else n - 55.

(** The bytes a percent-encoded string stands for. *)
Fixpoint percent_decode (s : string) : string :=
  match s with
  | EmptyString => EmptyString
  | String c rest =>
      match rest with
      | String a (String b rest') =>
          if Ascii.eqb c "%"%char
          then String (ascii_of_nat (16 * hex_value a + hex_value b)) (percent_decode rest')
          else String c (percent_decode rest)
      | _ => String c (percent_decode rest)
      end
  end.

(** The bytes that open or close a tag or an attribute value. *)
Definition markup : list ascii := ["<"; ">"; "034"]%char.

(** A visible ASCII byte or a space: what a header field value may hold. *)
Definition printable (c : ascii) : bool :=
  let n := nat_of_ascii c in ((32 <=? n) && (n <=? 126))%nat.

Fixpoint all_bytes (p : ascii -> bool) (s : string) : bool :=
  match s with
  | EmptyString => true
  | String c s' => p c && all_bytes p s'
  end.

(** An element [Clean] keeps as it is: neither empty, nor [.], nor [..]. *)
Definition is_name (e : string) : bool :=
  negb ((e =? "") || (e =? ".") || (e =? "..")).

(** A relative path that begins by leaving its directory. *)
Definition escapes (path : string) : bool :=
  (path =? "..") || prefix "../" path.

(** ** Start-up: the directory to share *)

Module startup.

(** The call of the start-up code that decides the loop: [os.Stat]. *)
Record Host (W : Type) := {
  os_Stat : string -> W -> (error + fs_FileInfo) * W
}.

Arguments os_Stat {W}.

Inductive LogEntry :=
| LogEnterPath                  (* "Enter directory path to share ..." *)
| LogInvalidPath (err : error). (* "Invalid path: %v, please retry" *)

(** [reader.ReadString('\n')] on what is left of standard input: the bytes
    up to and including the first newline, or all of them when there is
    none (the end-of-file error is dropped by the caller). *)
Fixpoint ReadString (input : string) : string * string :=
  match input with
  | EmptyString => ("", "")
  | String c rest =>
      if Ascii.eqb c "010"%char then (String c "", rest)
      else let (line, rest') := ReadString rest in (String c line, rest')
  end.

Record State (W : Type) := {
  stdin : string;
  world : W;
  logged : list LogEntry;
  rootDir : string
}.

Arguments stdin {W}.
Arguments world {W}.
Arguments logged {W}.
Arguments rootDir {W}.

Section Startup.

Context {W : Type}.
Variable host : Host W.
(** [strings.TrimSpace] *)
Variable TrimSpace : string -> string.

(** [validateDirectory] of R1_EN.go: [None] is [nil]. *)
Definition validateDirectory (path : string) (w : W) : option error * W :=
  match os_Stat host path w with
  | (inl (Err msg), w') => (Some (Err ("path access error: " ++ msg)), w')
  | (inr info, w') =>
      if negb (fi_IsDir info) then (Some (Err "not a directory"), w')
      else (None, w')
  end.

(** The input validation loop of [main]; [fuel] bounds the number of
    rounds, and [None] is a loop still running when it is used up. *)
Fixpoint prompt_loop (fuel : nat) (s : State W) : option (State W) :=
  match fuel with
  | O => None
  | S fuel' =>
      let (input, rest) := ReadString (stdin s) in
      let dir := TrimSpace input in
      match validateDirectory dir (world s) with
      | (None, w') =>
          Some {| stdin := rest; world := w';
                  logged := logged s ++ [LogEnterPath]; rootDir := dir |}
      | (Some err, w') =>
          prompt_loop fuel'
            {| stdin := rest; world := w';
               logged := logged s ++ [LogEnterPath; LogInvalidPath err];
               rootDir := dir |}
      end
  end.

(** Whether [os.Stat] reports a directory at [path]. *)
Definition is_directory (w : W) (path : string) : bool :=
  match fst (os_Stat host path w) with
  | inr info => fi_IsDir info
  | inl _ => false
  end.

(** What [validateDirectory] returns at [path]. *)
Definition verdict (w : W) (path : string) : option error :=
  fst (validateDirectory path w).

(** The error [validateDirectory] returns at a path it refuses. *)
Definition rejection (w : W) (path : string) : error :=
  match verdict w path with
  | Some err => err
  | None => Err ""
  end.

(** What the loop logs for the lines it refuses. *)
Definition retries (w : W) (bad : list string) : list LogEntry :=
  flat_map (fun l => [LogEnterPath; LogInvalidPath (rejection w (TrimSpace l))]) bad.

End Startup.

(** A line of input: bytes other than the newline, then the newline. *)
Definition line (l : string) : Prop :=
  exists body, l = (body ++ nl)%string /\ ContainsByte body "010"%char = false.

(** [os.Stat] on a file tree, the working directory being its root; the
    empty path names nothing. *)
Definition memfs_host : Host memfs.Node := {|
  os_Stat := fun path root =>
    match (if path =? "" then None else memfs.lookup root path) with
    | Some node => (inr (memfs.stat (path, node)), root)
    | None => (inl (Err ("stat " ++ path ++ ": no such file or directory")), root)
    end
|}.

End startup.

(** [strings.TrimSpace]: the white space of Unicode, as UTF-8 byte sequences. *)
Definition bytes (codes : list nat) : string :=
  string_of_list_ascii (map ascii_of_nat codes).

Definition white_space : list string :=
  map bytes
    ([[9]; [10]; [11]; [12]; [13]; [32]; [194; 133]; [194; 160]; [225; 154; 128]]
     ++ map (fun n => [226; 128; 128 + n]) (seq 0 11)
     ++ [[226; 128; 168]; [226; 128; 169]; [226; 128; 175]; [226; 129; 159];
         [227; 128; 128]]).

Fixpoint rev_string (s : string) : string :=
  match s with
  | EmptyString => EmptyString
  | String c s' => (rev_string s' ++ String c "")%string
  end.

(** What is left of [s] after the first sequence of [seqs] it starts with. *)
Fixpoint strip_one (seqs : list string) (s : string) : option string :=
  match seqs with
  | [] => None
  | q :: seqs' =>
      if prefix q s
      then Some (substring (String.length q) (String.length s - String.length q) s)
      else strip_one seqs' s
  end.

Fixpoint strip_all (n : nat) (seqs : list string) (s : string) : string :=
  match n with
  | O => s
  | S n' =>
      match strip_one seqs s with
      | Some s' => strip_all n' seqs s'
      | None => s
      end
  end.

Definition TrimLeft (s : string) : string :=
  strip_all (String.length s) white_space s.

Definition TrimRight (s : string) : string :=
  rev_string
    (strip_all (String.length s) (map rev_string white_space) (rev_string s)).

Definition strings_TrimSpace (s : string) : string := TrimRight (TrimLeft s).

(** ** [getLocalIP] *)

Module net.

(** [net.IP]: the bytes of an address. *)
Definition IP : Type := list Byte.byte.

Definition IPv6loopback : IP := repeat Byte.x00 15 ++ [Byte.x01].

(** [ip.To4()]: [None] is [nil]. *)
Definition To4 (ip : IP) : option IP :=
  if (length ip =? 4)%nat then Some ip
  else if ((length ip =? 16)%nat
           && forallb (Byte.eqb Byte.x00) (firstn 10 ip)
           && Byte.eqb (nth 10 ip Byte.x00) Byte.xff
           && Byte.eqb (nth 11 ip Byte.x00) Byte.xff)
       then Some (skipn 12 ip)
       else None.

(** [ip.IsLoopback()] *)
Definition IsLoopback (ip : IP) : bool :=
  match To4 ip with
  | Some ip4 => Byte.eqb (nth 0 ip4 Byte.x00) Byte.x7f
  | None => if list_eq_dec Byte.byte_eq_dec ip IPv6loopback then true else false
  end.

Definition decimal (b : Byte.byte) : string :=
  NilZero.string_of_uint (Nat.to_uint (Byte.to_nat b)).

(** [ip.String()] of an address in its four-byte form. *)
Definition dotted (ip4 : IP) : string :=
  decimal (nth 0 ip4 Byte.x00) ++ "." ++ decimal (nth 1 ip4 Byte.x00) ++ "."
  ++ decimal (nth 2 ip4 Byte.x00) ++ "." ++ decimal (nth 3 ip4 Byte.x00).

(** What [net.InterfaceAddrs] lists: a [*net.IPNet], or an address of
    another type. *)
Inductive Addr :=
| IPNet (ip : IP)
| OtherAddr.

(** The calls of [getLocalIP]: [Dial_udp] is [net.Dial("udp", "8.8.8.8:80")]
    and returns the text of the connection's local address. *)
Record Net (W : Type) := {
  Dial_udp : W -> (error + string) * W;
  InterfaceAddrs : W -> (error + list Addr) * W
}.

Arguments Dial_udp {W}.
Arguments InterfaceAddrs {W}.

(** [strings.Split(s, ":")[0]] *)
Definition before_colon (s : string) : string :=
  match CutBefore s ":"%char with
  | Some host => host
  | None => s
  end.

(** The scan of the interface addresses. *)
Fixpoint first_address (addrs : list Addr) : string :=
  match addrs with
  | [] => "127.0.0.1"
  | IPNet ip :: rest =>
      if negb (IsLoopback ip) then
        match To4 ip with
        | Some ip4 => dotted ip4
        | None => first_address rest
        end
      else first_address rest
  | OtherAddr :: rest => first_address rest
  end.

Definition getLocalIP {W} (n : Net W) (w : W) : string * W :=
  match Dial_udp n w with
  | (inr localAddr, w1) => (before_colon localAddr, w1)
  | (inl _, w1) =>
      match InterfaceAddrs n w1 with
      | (inl _, w2) => ("127.0.0.1", w2)
      | (inr addrs, w2) => (first_address addrs, w2)
      end
  end.

(** An interface address [getLocalIP] can show. *)
Definition usable (a : Addr) : bool :=
  match a with
  | IPNet ip =>
      negb (IsLoopback ip) && match To4 ip with Some _ => true | None => false end
  | OtherAddr => false
  end.

End net.

Module net_examples.

(** A network that answers the same at every call. *)
Definition fixed (dial : error + string) (addrs : error + list net.Addr)
  : net.Net unit := {|
  net.Dial_udp := fun w => (dial, w);
  net.InterfaceAddrs := fun w => (addrs, w)
|}.

Definition no_route : error + string :=
  inl (Err "dial udp 8.8.8.8:80: connect: network is unreachable").

Definition interfaces : list net.Addr :=
  [net.IPNet [Byte.x7f; Byte.x00; Byte.x00; Byte.x01];
   net.IPNet (repeat Byte.x00 15 ++ [Byte.x01]);
   net.OtherAddr;
   net.IPNet (repeat Byte.x00 10
              ++ [Byte.xff; Byte.xff; Byte.xc0; Byte.xa8; Byte.x01; Byte.x0a]);
   net.IPNet [Byte.x0a; Byte.x00; Byte.x00; Byte.x05]].

End net_examples.

(** * Properties *)

(** ** What one request leaves behind, case by case *)

Section Runs.

Context {W F : Type}.
Variable os : OS W F.
Variable build : Build.
Variable rootDir : string.
Variable r : http.Request.
Variable w : W.

Let reqPath := http.URL_Path r.
Let path := fullPath rootDir reqPath.
Let before : list LogEntry :=
  [LogRequest (http.Method r) reqPath; LogProcessing reqPath path].
Let after : list LogEntry := [LogComplete (http.Method r) reqPath].

Ltac run :=
  unfold serve, handler, sendFile, listDir, defer, bind, syscall,
    log_Printf, respond, ret;
  cbn [world resp logged fst snd].

Ltac step H :=
  unfold path, reqPath, fullPath, cleanedPath in H;
  rewrite H; cbn [world resp logged fst snd fi_IsDir].

Lemma serve_open_failed err w1 :
  os_Open os path w = (inl err, w1) ->
  serve os build rootDir r w =
  {| world := w1;
     resp := http.Error (not_found_text build) http.StatusNotFound http.new_response;
     logged := before ++ [LogOpenFailed err] ++ after |}.
Proof.
  intros Hopen. run. step Hopen. reflexivity.
Qed.

Lemma serve_stat_failed file w1 err w2 :
  os_Open os path w = (inr file, w1) ->
  file_Stat os file w1 = (inl err, w2) ->
  serve os build rootDir r w =
  {| world := file_Close os file w2;
     resp := http.Error (stat_error_text build) http.StatusInternalServerError
               http.new_response;
     logged := before ++ [LogStatFailed err] ++ after |}.
Proof.
  intros Hopen Hstat. run. step Hopen. step Hstat. reflexivity.
Qed.

Lemma serve_readdir_failed file w1 info w2 err w3 :
  os_Open os path w = (inr file, w1) ->
  file_Stat os file w1 = (inr info, w2) ->
  fi_IsDir info = true ->
  os_ReadDir os path w2 = (inl err, w3) ->
  serve os build rootDir r w =
  {| world := file_Close os file w3;
     resp := http.Error (dir_error_text build) (dir_error_code build) http.new_response;
     logged := before ++ [LogDirReadError err] ++ after |}.
Proof.
  intros Hopen Hstat Hdir Hread. run. step Hopen. step Hstat.
  rewrite Hdir; cbn [world resp logged fst snd]. step Hread. reflexivity.
Qed.

Lemma serve_listing file w1 info w2 files w3 :
  os_Open os path w = (inr file, w1) ->
  file_Stat os file w1 = (inr info, w2) ->
  fi_IsDir info = true ->
  os_ReadDir os path w2 = (inr files, w3) ->
  serve os build rootDir r w =
  {| world := file_Close os file w3;
     resp := http.Write (dirListTemplate build (listing (cleanedPath reqPath) files))
               (http.Header_Set "Content-Type" "text/html; charset=utf-8"
                  http.new_response);
     logged := before ++ after |}.
Proof.
  intros Hopen Hstat Hdir Hread. run. step Hopen. step Hstat.
  rewrite Hdir; cbn [world resp logged fst snd]. step Hread. reflexivity.
Qed.

Lemma serve_reopen_failed file w1 info w2 err w3 :
  os_Open os path w = (inr file, w1) ->
  file_Stat os file w1 = (inr info, w2) ->
  fi_IsDir info = false ->
  os_Open os path w2 = (inl err, w3) ->
  serve os build rootDir r w =
  {| world := file_Close os file w3;
     resp := http.Error (open_error_text build) http.StatusNotFound http.new_response;
     logged := before ++ [LogOpenError err] ++ after |}.
Proof.
  intros Hopen Hstat Hdir Hreopen. run. step Hopen. step Hstat.
  rewrite Hdir; cbn [world resp logged fst snd]. step Hreopen. reflexivity.
Qed.

Lemma serve_file file w1 info w2 file' w3 data failure w4 :
  os_Open os path w = (inr file, w1) ->
  file_Stat os file w1 = (inr info, w2) ->
  fi_IsDir info = false ->
  os_Open os path w2 = (inr file', w3) ->
  io_Copy os file' w3 = ((data, failure), w4) ->
  serve os build rootDir r w =
  {| world := file_Close os file (file_Close os file' w4);
     resp :=
       http.Write data
         (http.Header_Set "Content-Length" (strconv.FormatInt (fi_Size info))
            (http.Header_Set "Content-Type" "application/octet-stream"
               (http.Header_Set "Content-Disposition"
                  (content_disposition (fi_Name info)) http.new_response)));
     logged := before ++ transfer_log failure ++ after |}.
Proof.
  intros Hopen Hstat Hdir Hreopen Hcopy. run. step Hopen. step Hstat.
  rewrite Hdir; cbn [world resp logged fst snd]. step Hreopen. step Hcopy. destruct failure; reflexivity.
Qed.

End Runs.

(** ** Path resolution *)

Lemma Clean_not_empty path : filepath.Clean path <> "".
Proof.
  unfold filepath.Clean.
  destruct (filepath.rooted path); cbv zeta.
  - rewrite (proj2 (String.eqb_neq _ _)); discriminate.
  - destruct (String.eqb_spec (strings_Join
      (filepath.clean_elements false (filepath.elements path)) "/") "")
      as [_ | Hne]; [discriminate | exact Hne].
Qed.

(** *** Cleaning a cleaned path *)

Lemma elements_not_nil p : filepath.elements p <> [].
Proof.
  destruct p as [| c rest]; cbn; [discriminate |].
  destruct (Ascii.eqb c filepath.Separator); [discriminate |].
  destruct (filepath.elements rest); discriminate.
Qed.

Lemma elements_app_sep a b :
  filepath.elements (a ++ String "/"%char b)
  = filepath.elements a ++ filepath.elements b.
Proof.
  induction a as [| c a IH]; [reflexivity |].
  cbn [String.append filepath.elements]. rewrite IH.
  destruct (Ascii.eqb c filepath.Separator); [reflexivity |].
  destruct (filepath.elements a) as [| e es] eqn:He.
  - exfalso; exact (elements_not_nil a He).
  - reflexivity.
Qed.

Lemma elements_sep_free e :
  sep_free e = true -> filepath.elements e = [e].
Proof.
  unfold sep_free. induction e as [| c e IH]; [reflexivity |].
  cbn [ContainsByte filepath.elements]. unfold filepath.Separator.
  destruct (Ascii.eqb c "/"%char); cbn [orb negb]; [discriminate |].
  intros H. rewrite (IH H). reflexivity.
Qed.

Lemma elements_all_sep_free p :
  Forall (fun e => sep_free e = true) (filepath.elements p).
Proof.
  induction p as [| c p IH]; [repeat constructor |].
  cbn [filepath.elements].
  destruct (Ascii.eqb c filepath.Separator) eqn:Hc.
  - constructor; [reflexivity | exact IH].
  - destruct (filepath.elements p) as [| e es]; [repeat constructor |].
    + unfold sep_free; cbn. unfold filepath.Separator in Hc. rewrite Hc. reflexivity.
    + inversion IH as [| ? ? He Hes]; subst. constructor; [| exact Hes].
      unfold sep_free in *; cbn [ContainsByte].
      unfold filepath.Separator in Hc. rewrite Hc. exact He.
Qed.

Lemma elements_Join l :
  l <> [] -> Forall (fun e => sep_free e = true) l ->
  filepath.elements (strings_Join l "/") = l.
Proof.
  induction l as [| e l IH]; [congruence |].
  intros _ Hall. inversion Hall as [| ? ? He Hl]; subst.
  destruct l as [| e' l'].
  - cbn. apply elements_sep_free, He.
  - change (strings_Join (e :: e' :: l') "/")
      with (e ++ String "/"%char (strings_Join (e' :: l') "/"))%string.
    rewrite elements_app_sep, (elements_sep_free e He), IH; [reflexivity | discriminate | exact Hl].
Qed.

Lemma clean_step_keeps_ok out e :
  stack_ok out -> stack_ok (filepath.clean_step false out e).
Proof.
  intros Hok. unfold filepath.clean_step.
  destruct ((e =? "") || (e =? ".")) eqn:Hskip; [exact Hok |].
  destruct (e =? "..") eqn:Hdd.
  - apply String.eqb_eq in Hdd; subst e.
    destruct out as [| top below]; [apply ok_dots; repeat constructor |].
    destruct (top =? "..") eqn:Htop.
    + inversion Hok as [? Hall | ? ? Hreal ?]; subst.
      * apply ok_dots; constructor; [reflexivity | exact Hall].
      * rewrite Htop in Hreal. rewrite !orb_true_r in Hreal. discriminate.
    + inversion Hok as [? Hall | ? ? Hreal Hbelow]; subst; [| exact Hbelow].
      inversion Hall as [| ? ? Heq ?]; subst.
      rewrite String.eqb_refl in Htop; discriminate.
  - apply ok_real; [| exact Hok].
    rewrite Hskip, Hdd; reflexivity.
Qed.

Lemma fold_clean_ok es out :
  stack_ok out -> stack_ok (fold_left (filepath.clean_step false) es out).
Proof.
  revert out; induction es as [| e es IH]; intros out Hok; [exact Hok |].
  cbn [fold_left]. apply IH, clean_step_keeps_ok, Hok.
Qed.

Lemma clean_step_pushes e out :
  stack_ok (e :: out) -> filepath.clean_step false out e = e :: out.
Proof.
  intros Hok. unfold filepath.clean_step.
  inversion Hok as [? Hall | ? ? Hreal Hout]; subst.
  - inversion Hall as [| ? ? Heq Hrest]; subst. cbn [String.eqb Ascii.eqb orb].
    cbn. destruct out as [| top below]; [reflexivity |].
    inversion Hrest as [| ? ? Htop ?]; subst. reflexivity.
  - apply orb_false_iff in Hreal as [Hskip Hdd]. rewrite Hskip, Hdd. reflexivity.
Qed.

Lemma stack_ok_tail e out : stack_ok (e :: out) -> stack_ok out.
Proof.
  intros Hok; inversion Hok as [? Hall | ? ? ? Hout]; subst; [| exact Hout].
  inversion Hall; subst. apply ok_dots; assumption.
Qed.

Lemma replay_stack out :
  stack_ok out -> fold_left (filepath.clean_step false) (rev out) [] = out.
Proof.
  induction out as [| e out IH]; intros Hok; [reflexivity |].
  cbn [rev]. rewrite fold_left_app. cbn [fold_left].
  rewrite (IH (stack_ok_tail _ _ Hok)). apply clean_step_pushes, Hok.
Qed.

Lemma clean_step_sep_free r out e :
  sep_free e = true -> Forall (fun e => sep_free e = true) out ->
  Forall (fun e => sep_free e = true) (filepath.clean_step r out e).
Proof.
  intros He Hout. unfold filepath.clean_step.
  destruct ((e =? "") || (e =? ".")); [exact Hout |].
  destruct (e =? "..").
  - destruct out as [| top below].
    + destruct r; repeat constructor; exact He.
    + inversion Hout; subst.
      destruct (top =? ".."); [destruct r |]; try assumption.
      constructor; assumption.
  - constructor; assumption.
Qed.

Lemma fold_clean_sep_free r es out :
  Forall (fun e => sep_free e = true) es ->
  Forall (fun e => sep_free e = true) out ->
  Forall (fun e => sep_free e = true) (fold_left (filepath.clean_step r) es out).
Proof.
  revert out; induction es as [| e es IH]; intros out Hes Hout; [exact Hout |].
  inversion Hes; subst. cbn [fold_left].
  apply IH; [assumption | apply clean_step_sep_free; assumption].
Qed.

Lemma clean_step_entry r out name :
  entry_name name = true -> filepath.clean_step r out name = name :: out.
Proof.
  unfold entry_name, filepath.clean_step. intros H.
  apply andb_true_iff in H as [H _]. apply negb_true_iff in H.
  apply orb_false_iff in H as [H Hdd]. rewrite H, Hdd. reflexivity.
Qed.

Lemma ContainsByte_app a b c :
  ContainsByte (a ++ b) c = ContainsByte a c || ContainsByte b c.
Proof.
  induction a as [| d a IH]; [reflexivity |].
  cbn [String.append ContainsByte]. rewrite IH, orb_assoc. reflexivity.
Qed.

Lemma Join_two_has_separator x l name :
  ContainsByte (strings_Join ((x :: l) ++ [name]) "/") "/"%char = true.
Proof.
  destruct l as [| y l]; cbn [app].
  - change (strings_Join [x; name] "/") with (x ++ String "/"%char name)%string.
    rewrite ContainsByte_app. cbn. apply orb_true_r.
  - change (strings_Join (x :: y :: l ++ [name]) "/")
      with (x ++ String "/"%char (strings_Join (y :: l ++ [name]) "/"))%string.
    rewrite ContainsByte_app. cbn [ContainsByte]. cbn. apply orb_true_r.
Qed.

(** The elements of a cleaned relative path other than [.], replayed. *)
Lemma Clean_relative_elements p :
  filepath.rooted (filepath.Clean p) = false ->
  filepath.Clean p <> "." ->
  fold_left (filepath.clean_step false) (filepath.elements (filepath.Clean p)) [] <> [].
Proof.
  unfold filepath.Clean.
  destruct (filepath.rooted p) eqn:Hr; cbv zeta.
  - rewrite (proj2 (String.eqb_neq (String filepath.Separator _) "")) by discriminate.
    cbn. discriminate.
  - unfold filepath.clean_elements.
    set (S0 := fold_left (filepath.clean_step false) (filepath.elements p) []).
    assert (Hok : stack_ok S0)
      by (apply fold_clean_ok, ok_dots; constructor).
    assert (Hfree : Forall (fun e => sep_free e = true) (rev S0)).
    { apply Forall_rev, fold_clean_sep_free;
        [apply elements_all_sep_free | constructor]. }
    destruct (String.eqb_spec (strings_Join (rev S0) "/") "") as [_ | Hne];
      [congruence |].
    intros _ _.
    assert (Hnil : rev S0 <> []) by (intros E; rewrite E in Hne; apply Hne; reflexivity).
    rewrite (elements_Join _ Hnil Hfree), (replay_stack _ Hok).
    intros E; rewrite E in Hnil; apply Hnil; reflexivity.
Qed.

Lemma rooted_app a b : a <> "" -> filepath.rooted (a ++ b) = filepath.rooted a.
Proof. destruct a; [congruence | reflexivity]. Qed.

Lemma Join_child_has_separator p name :
  filepath.Clean p <> "." ->
  entry_name name = true ->
  ContainsByte (filepath.Join [filepath.Clean p; name]) "/"%char = true.
Proof.
  intros Hroot Hname.
  set (relPath := filepath.Clean p) in *.
  assert (Hne : relPath <> "") by apply Clean_not_empty.
  cbn [filepath.Join]. rewrite (proj2 (String.eqb_neq _ _) Hne).
  change (strings_Join [relPath; name] "/") with (relPath ++ String "/"%char name)%string.
  unfold filepath.Clean at 1.
  rewrite (rooted_app _ _ Hne), elements_app_sep.
  unfold filepath.clean_elements. rewrite fold_left_app.
  assert (Hsep : sep_free name = true)
    by (apply andb_true_iff in Hname as [_ H]; exact H).
  rewrite (elements_sep_free name Hsep). cbn [fold_left].
  rewrite (clean_step_entry _ _ _ Hname). cbn [rev].
  destruct (filepath.rooted relPath) eqn:Hr; cbv zeta.
  - rewrite (proj2 (String.eqb_neq (String filepath.Separator _) "")) by discriminate.
    reflexivity.
  - pose proof (Clean_relative_elements p Hr Hroot) as Hstack. fold relPath in Hstack.
    destruct (rev (fold_left (filepath.clean_step false) (filepath.elements relPath) []))
      as [| x l] eqn:Hrev.
    + apply (f_equal (@rev string)) in Hrev. rewrite rev_involutive in Hrev.
      contradiction.
    + pose proof (Join_two_has_separator x l name) as Hjoin.
      destruct (String.eqb_spec (strings_Join ((x :: l) ++ [name]) "/") "") as [E | _];
        [rewrite E in Hjoin; discriminate | exact Hjoin].
Qed.

(** C1, evaluated where it fails.  [Clean] keeps the leading [..] elements
    of a path that is not rooted, and [Join] then resolves them against the
    root directory: the request path [/../../etc/passwd] resolves under the
    root [/srv/share] to [/etc/passwd], which does not have the root as a
    prefix, and the handler serves that file. *)
Theorem traversal_leaves_root :
  cleanedPath "/../../etc/passwd" = "../../etc/passwd"
  /\ fullPath "/srv/share" "/../../etc/passwd" = "/etc/passwd"
  /\ prefix "/srv/share" (fullPath "/srv/share" "/../../etc/passwd") = false
  /\ (let out := resp (serve memfs.os R1_EN "/srv/share"
                         (CONNECT "/../../etc/passwd") share) in
      http.status out = 200 /\ http.written out = "root:x:0:0").
Proof.
  repeat split; vm_compute; reflexivity.
Qed.

(** ** The directory listing *)

Lemma listing_always_has_parent reqPath files :
  HasParent (listing (cleanedPath reqPath) files) = true.
Proof.
  unfold listing, cleanedPath; cbn [HasParent].
  apply negb_true_iff, String.eqb_neq, Clean_not_empty.
Qed.

(** C2, evaluated where it fails.  The relative path of the request [/] is
    [Clean ""], that is [.], never the empty string the test [relPath != ""]
    looks for: the listing of the root carries a parent link, to [.], as the
    listing of every other request does. *)
Theorem root_listing_has_parent_link :
  cleanedPath "/" = "."
  /\ (forall files, HasParent (listing (cleanedPath "/") files) = true)
  /\ (forall files, ParentPath (listing (cleanedPath "/") files) = ".")
  /\ Contains
       (http.written (resp (serve memfs.os R1_EN "/srv/share" (GET "/") share)))
       ("<li><a href=" ++ dq ++ "." ++ dq ++ ">.. (Parent Directory)</a></li>")%string
     = true.
Proof.
  split; [reflexivity |].
  split; [intros files; apply listing_always_has_parent |].
  split; [intros files; reflexivity |].
  vm_compute; reflexivity.
Qed.

(** What does hold of the page: a name, escaped by [listDir] and again by
    the template, reaches the page without any byte that opens a tag or
    closes an attribute; and a URL that the filter accepts is written as
    [listDir] computed it, up to the escaping of the attribute value. *)

Lemma rendered_name_byte c rest x :
  In x ["<"; ">"; "034"; "'"]%char ->
  ContainsByte (template.htmlEscaper (html.EscapeString (String c rest))) x
  = ContainsByte (template.htmlEscaper (html.EscapeString rest)) x.
Proof.
  intros [<- | [<- | [<- | [<- | []]]]];
    destruct c as [[] [] [] [] [] [] [] []]; reflexivity.
Qed.

Lemma rendered_name_has_no_markup name x :
  In x ["<"; ">"; "034"; "'"]%char ->
  ContainsByte (template.htmlEscaper (html.EscapeString name)) x = false.
Proof.
  intros Hx. induction name as [| c rest IH]; [reflexivity |].
  rewrite (rendered_name_byte c rest x Hx); exact IH.
Qed.

Lemma urlNormalizer_PathEscape_byte c rest :
  template.urlNormalizer (url.PathEscape (String c rest))
  = (url.PathEscape (String c "") ++ template.urlNormalizer (url.PathEscape rest))%string.
Proof.
  destruct c as [[] [] [] [] [] [] [] []]; reflexivity.
Qed.

Lemma PathEscape_byte c rest :
  url.PathEscape (String c rest)
  = (url.PathEscape (String c "") ++ url.PathEscape rest)%string.
Proof.
  destruct c as [[] [] [] [] [] [] [] []]; reflexivity.
Qed.

Lemma urlNormalizer_PathEscape p :
  template.urlNormalizer (url.PathEscape p) = url.PathEscape p.
Proof.
  induction p as [| c rest IH]; [reflexivity |].
  rewrite urlNormalizer_PathEscape_byte, IH, <- PathEscape_byte; reflexivity.
Qed.

Lemma href_of_accepted_url p :
  template.isSafeURL (url.PathEscape p) = true ->
  template.href_value (url.PathEscape p) = template.attrEscaper (url.PathEscape p).
Proof.
  intros Hsafe. unfold template.href_value, template.urlFilter.
  rewrite Hsafe, urlNormalizer_PathEscape; reflexivity.
Qed.

(** C7, evaluated where it fails.  For the child [a:b.txt] of the root,
    [listDir] computes the URL-escaped relative path [a:b.txt], in which the
    colon stays; the template's URL filter takes the text before the colon
    for a scheme that is not allowed and writes [#ZgotmplZ] as the link
    target.  The page also escapes every name twice, once in [listDir] and
    once in the template: [<script>.txt] is written [&amp;lt;script&amp;gt;.txt]. *)
Theorem colon_name_link_is_replaced :
  let page := http.written (resp (serve memfs.os R1_EN "/srv/share" (GET "/") share)) in
  url.PathEscape (filepath.ToSlash (filepath.Join [cleanedPath "/"; "a:b.txt"])) = "a:b.txt"
  /\ Contains page
       ("<li><a href=" ++ dq ++ "#ZgotmplZ" ++ dq ++ "><file>a:b.txt</file></a></li>")%string
     = true
  /\ Contains page ("href=" ++ dq ++ "a:b.txt" ++ dq)%string = false
  /\ Contains page "<file>&amp;lt;script&amp;gt;.txt</file>" = true
  /\ Contains page (html.EscapeString "<script>.txt") = false.
Proof.
  repeat split; vm_compute; reflexivity.
Qed.

Lemma PathEscape_byte_no_slash c rest :
  ContainsByte (url.PathEscape (String c rest)) "/"%char
  = ContainsByte (url.PathEscape rest) "/"%char.
Proof.
  destruct c as [[] [] [] [] [] [] [] []]; reflexivity.
Qed.

(** The URL [listDir] computes never holds a literal slash. *)
Lemma PathEscape_no_slash p :
  ContainsByte (url.PathEscape p) "/"%char = false.
Proof.
  induction p as [| c rest IH]; [reflexivity |].
  rewrite PathEscape_byte_no_slash; exact IH.
Qed.

Lemma Contains_app_r a b sub :
  Contains b sub = true -> Contains (a ++ b) sub = true.
Proof.
  intros H. induction a as [| c a IH]; [exact H |].
  cbn [String.append Contains]. rewrite IH. apply orb_true_r.
Qed.

Lemma PathEscape_encodes_separator s :
  ContainsByte s "/"%char = true -> Contains (url.PathEscape s) "%2F" = true.
Proof.
  induction s as [| c rest IH]; [discriminate |].
  cbn [ContainsByte]. destruct (Ascii.eqb_spec c "/"%char) as [-> | Hc].
  - intros _. rewrite PathEscape_byte.
    destruct (url.PathEscape rest); reflexivity.
  - cbn [orb]. intros H.
    rewrite PathEscape_byte. apply Contains_app_r, IH, H.
Qed.

(** The URL [listDir] computes for a child of a directory other than the
    root holds the separator as [%2F]. *)
Lemma child_url_encodes_separator reqPath name :
  cleanedPath reqPath <> "." ->
  entry_name name = true ->
  forall isDir,
  let item := {| de_Name := name; de_IsDir := isDir |} in
  let u := url.PathEscape
             (filepath.ToSlash (filepath.Join [cleanedPath reqPath; name])) in
  map URL (Files (listing (cleanedPath reqPath) [item])) = [u]
  /\ Contains u "%2F" = true
  /\ ContainsByte u "/"%char = false.
Proof.
  intros Hroot Hname isDir item u. split; [reflexivity |].
  split; [| apply PathEscape_no_slash].
  apply PathEscape_encodes_separator, Join_child_has_separator; assumption.
Qed.


(** C9, evaluated where it fails.  For the child [a:b] of the directory
    [docs], [listDir] computes [docs%2Fa:b]; the template's URL filter
    replaces it, and the link target written to the page, [#ZgotmplZ], holds
    no [%2F]. *)
Theorem colon_child_href_has_no_encoded_separator :
  let page := http.written (resp (serve memfs.os R1_EN "/srv/share" (GET "/docs") share)) in
  cleanedPath "/docs" = "docs"
  /\ map URL (Files (listing "docs" [{| de_Name := "a:b"; de_IsDir := false |}]))
     = ["docs%2Fa:b"]
  /\ template.href_value "docs%2Fa:b" = "#ZgotmplZ"
  /\ Contains (template.href_value "docs%2Fa:b") "%2F" = false
  /\ Contains page
       ("<li><a href=" ++ dq ++ "#ZgotmplZ" ++ dq ++ "><file>a:b</file></a></li>")%string
     = true
  /\ Contains page "docs%2Fa:b" = false.
Proof.
  repeat split; vm_compute; reflexivity.
Qed.

(** ** The dispatcher *)

Section Dispatcher.

Context {W F : Type}.
Variable os : OS W F.
Variable build : Build.
Variable rootDir : string.
Variable r : http.Request.
Variable w : W.

Let path := fullPath rootDir (http.URL_Path r).
Let out := serve os build rootDir r w.

(** C5.  When the open fails the response is 404 with the text of the
    not-found error and the cause is logged; when the open succeeds and the
    stat fails the response is 500; when both succeed the response is, byte
    for byte, what [listDir] or [sendFile] writes, so the dispatcher has no
    other error response of its own. *)
Theorem dispatcher_error_responses :
  (forall err w1,
      os_Open os path w = (inl err, w1) ->
      http.status (resp out) = 404
      /\ http.written (resp out) = (not_found_text build ++ nl)%string
      /\ In (LogOpenFailed err) (logged out))
  /\ (forall file w1 err w2,
      os_Open os path w = (inr file, w1) ->
      file_Stat os file w1 = (inl err, w2) ->
      http.status (resp out) = 500
      /\ http.written (resp out) = (stat_error_text build ++ nl)%string
      /\ In (LogStatFailed err) (logged out))
  /\ (forall file w1 info w2,
      os_Open os path w = (inr file, w1) ->
      file_Stat os file w1 = (inr info, w2) ->
      let delegate :=
        if fi_IsDir info
        then listDir os build path (cleanedPath (http.URL_Path r))
        else sendFile os build path (fi_Name info) (fi_Size info) in
      resp out =
      resp (snd (delegate {| world := w2; resp := http.new_response;
                             logged := [LogRequest (http.Method r) (http.URL_Path r);
                                        LogProcessing (http.URL_Path r) path] |}))).
Proof.
  unfold out, path. split; [| split].
  - intros err w1 Hopen.
    rewrite (serve_open_failed _ _ _ _ _ _ _ Hopen); cbn [logged].
    repeat split. apply in_or_app; right; left; reflexivity.
  - intros file w1 err w2 Hopen Hstat.
    rewrite (serve_stat_failed _ _ _ _ _ _ _ _ _ Hopen Hstat); cbn [logged].
    repeat split. apply in_or_app; right; left; reflexivity.
  - intros file w1 info w2 Hopen Hstat.
    unfold serve, handler, defer, bind, syscall, log_Printf.
    cbn [world resp logged fst snd].
    unfold fullPath, cleanedPath in Hopen |- *.
    rewrite Hopen; cbn [world resp logged fst snd].
    rewrite Hstat; cbn [world resp logged fst snd app].
    destruct (fi_IsDir info).
    + destruct (listDir _ _ _ _ _) as [u s]; reflexivity.
    + destruct (sendFile _ _ _ _ _ _) as [u s]; reflexivity.
Qed.

End Dispatcher.

Lemma dispatcher_error_responses_witness :
  (let out := serve scripted.os R1_EN "/srv/share" (GET "/missing")
                [scripted.Opened (inl (Err "no such file or directory"))] in
   http.status (resp out) = 404
   /\ http.written (resp out) = (not_found_text R1_EN ++ nl)%string
   /\ In (LogOpenFailed (Err "no such file or directory")) (logged out))
  /\ (let out := serve scripted.os R1_EN "/srv/share" (GET "/gone")
                   [scripted.Opened (inr 3);
                    scripted.Statted (inl (Err "stale file handle"))] in
      http.status (resp out) = 500
      /\ http.written (resp out) = (stat_error_text R1_EN ++ nl)%string
      /\ In (LogStatFailed (Err "stale file handle")) (logged out)).
Proof.
  split.
  - apply (proj1 (dispatcher_error_responses scripted.os R1_EN "/srv/share"
                    (GET "/missing")
                    [scripted.Opened (inl (Err "no such file or directory"))])
             (Err "no such file or directory") []).
    reflexivity.
  - apply (proj1 (proj2 (dispatcher_error_responses scripted.os R1_EN "/srv/share"
                    (GET "/gone")
                    [scripted.Opened (inr 3);
                     scripted.Statted (inl (Err "stale file handle"))]))
             3 [scripted.Statted (inl (Err "stale file handle"))]
             (Err "stale file handle") []);
      reflexivity.
Defined.

(** ** Directories that cannot be read *)

Lemma error_text_is_no_listing build data :
  In build [R1_EN; R1_ZH] ->
  (dir_error_text build ++ nl)%string <> dirListTemplate build data.
Proof.
  intros [<- | [<- | []]]; intros Heq;
    apply (f_equal (fun s => String.get 0 s)) in Heq;
    cbn in Heq; discriminate.
Qed.

(** C6.  In either build, when a directory was opened and its entries cannot
    be read, the status is the build's choice between 403 and 500, the cause
    is logged, and the body is the one line of the error text, sent as plain
    text: no listing is rendered. *)
Theorem unreadable_directory_response {W F} (os : OS W F) build rootDir r w
    file w1 info w2 err w3 :
  In build [R1_EN; R1_ZH] ->
  os_Open os (fullPath rootDir (http.URL_Path r)) w = (inr file, w1) ->
  file_Stat os file w1 = (inr info, w2) ->
  fi_IsDir info = true ->
  os_ReadDir os (fullPath rootDir (http.URL_Path r)) w2 = (inl err, w3) ->
  let out := serve os build rootDir r w in
  (http.status (resp out) = 403 \/ http.status (resp out) = 500)
  /\ http.status (resp out) = dir_error_code build
  /\ In (LogDirReadError err) (logged out)
  /\ http.written (resp out) = (dir_error_text build ++ nl)%string
  /\ http.Header_Get "Content-Type" (http.header (resp out))
     = Some "text/plain; charset=utf-8"
  /\ (forall data, http.written (resp out) <> dirListTemplate build data).
Proof.
  intros Hbuild Hopen Hstat Hdir Hread out. unfold out.
  rewrite (serve_readdir_failed _ _ _ _ _ _ _ _ _ _ _ Hopen Hstat Hdir Hread).
  cbn [resp logged].
  assert (Hbody : http.written
            (http.Error (dir_error_text build) (dir_error_code build) http.new_response)
          = (dir_error_text build ++ nl)%string) by reflexivity.
  repeat split.
  - destruct Hbuild as [<- | [<- | []]]; [left | right]; reflexivity.
  - apply in_or_app; right; left; reflexivity.
  - intros data. rewrite Hbody. apply error_text_is_no_listing, Hbuild.
Qed.

Lemma unreadable_directory_response_witness :
  let out := serve scripted.os R1_ZH "/srv/share" (GET "/docs")
               [scripted.Opened (inr 3);
                scripted.Statted
                  (inr {| fi_Name := "docs"; fi_Size := 4096; fi_IsDir := true |});
                scripted.DirRead (inl (Err "permission denied"))] in
  (http.status (resp out) = 403 \/ http.status (resp out) = 500)
  /\ http.status (resp out) = dir_error_code R1_ZH
  /\ In (LogDirReadError (Err "permission denied")) (logged out)
  /\ http.written (resp out) = (dir_error_text R1_ZH ++ nl)%string
  /\ http.Header_Get "Content-Type" (http.header (resp out))
     = Some "text/plain; charset=utf-8"
  /\ (forall data, http.written (resp out) <> dirListTemplate R1_ZH data).
Proof.
  apply (unreadable_directory_response scripted.os R1_ZH "/srv/share" (GET "/docs")
           [scripted.Opened (inr 3);
            scripted.Statted
              (inr {| fi_Name := "docs"; fi_Size := 4096; fi_IsDir := true |});
            scripted.DirRead (inl (Err "permission denied"))]
           3
           [scripted.Statted
              (inr {| fi_Name := "docs"; fi_Size := 4096; fi_IsDir := true |});
            scripted.DirRead (inl (Err "permission denied"))]
           {| fi_Name := "docs"; fi_Size := 4096; fi_IsDir := true |}
           [scripted.DirRead (inl (Err "permission denied"))]
           (Err "permission denied") []).
  - right; left; reflexivity.
  - reflexivity.
  - reflexivity.
  - reflexivity.
  - reflexivity.
Defined.

(** ** File responses *)

Lemma PathEscape_byte_no_quote c rest :
  ContainsByte (url.PathEscape (String c rest)) "034"%char
  = ContainsByte (url.PathEscape rest) "034"%char.
Proof.
  destruct c as [[] [] [] [] [] [] [] []]; reflexivity.
Qed.

Lemma PathEscape_no_quote s :
  ContainsByte (url.PathEscape s) "034"%char = false.
Proof.
  induction s as [| c rest IH]; [reflexivity |].
  rewrite PathEscape_byte_no_quote; exact IH.
Qed.

Section FileResponse.

Context {W F : Type}.
Variable os : OS W F.
Variable build : Build.
Variable rootDir : string.
Variable r : http.Request.
Variable w : W.

Let path := fullPath rootDir (http.URL_Path r).
Let out := serve os build rootDir r w.

Variables (file file' : F) (w1 w2 w3 : W) (info : fs_FileInfo).
Hypothesis Hopen : os_Open os path w = (inr file, w1).
Hypothesis Hstat : file_Stat os file w1 = (inr info, w2).
Hypothesis Hfile : fi_IsDir info = false.

Lemma file_response_headers :
  os_Open os path w2 = (inr file', w3) ->
  http.header (resp out) =
  [("Content-Length", strconv.FormatInt (fi_Size info));
   ("Content-Type", "application/octet-stream");
   ("Content-Disposition", content_disposition (fi_Name info))]
  /\ http.written (resp out) = fst (fst (io_Copy os file' w3))
  /\ http.status (resp out) = 200.
Proof.
  intros Hreopen. unfold out.
  destruct (io_Copy os file' w3) as [[data failure] w4] eqn:Hcopy.
  rewrite (serve_file _ _ _ _ _ _ _ _ _ _ _ _ _ _ Hopen Hstat Hfile Hreopen Hcopy).
  repeat split.
Qed.

(** C4.  On every file response the Content-Disposition header is
    [attachment], then the file name in the quoted form [filename="..."],
    then the same name in the extended form [filename*=UTF-8''...]; both
    forms carry the percent-encoded name, which holds no quote. *)
Theorem file_response_content_disposition :
  os_Open os path w2 = (inr file', w3) ->
  let encodedName := url.PathEscape (fi_Name info) in
  http.Header_Get "Content-Disposition" (http.header (resp out))
  = Some ("attachment; filename=" ++ dq ++ encodedName ++ dq
          ++ "; filename*=UTF-8''" ++ encodedName)%string
  /\ ContainsByte encodedName "034"%char = false.
Proof.
  intros Hreopen encodedName.
  destruct (file_response_headers Hreopen) as [-> _].
  split; [reflexivity | apply PathEscape_no_quote].
Qed.

(** C8.  On every file response the Content-Type header is
    [application/octet-stream], whatever the name and the size of the file. *)
Theorem file_response_content_type :
  os_Open os path w2 = (inr file', w3) ->
  http.Header_Get "Content-Type" (http.header (resp out))
  = Some "application/octet-stream".
Proof.
  intros Hreopen.
  destruct (file_response_headers Hreopen) as [-> _].
  reflexivity.
Qed.

(** C10.  [sendFile] opens the path again; when this second open fails,
    after the dispatcher's open and stat of the same path succeeded, the
    response is 404 with the not-found text, and the cause is logged. *)
Theorem second_open_failure_is_not_found err :
  os_Open os path w2 = (inl err, w3) ->
  http.status (resp out) = 404
  /\ http.written (resp out) = (open_error_text build ++ nl)%string
  /\ In (LogOpenError err) (logged out)
  /\ http.Header_Get "Content-Length" (http.header (resp out)) = None.
Proof.
  intros Hreopen. unfold out.
  rewrite (serve_reopen_failed _ _ _ _ _ _ _ _ _ _ _ Hopen Hstat Hfile Hreopen).
  cbn [resp logged]. repeat split.
  apply in_or_app; right; left; reflexivity.
Qed.

End FileResponse.

(** A regular file of the tree, served from the tree. *)
Lemma memfs_serve_file build rootDir r root content :
  memfs.lookup root (fullPath rootDir (http.URL_Path r))
  = Some (memfs.RegularFile content) ->
  resp (serve memfs.os build rootDir r root) =
  http.Write content
    (http.Header_Set "Content-Length"
       (strconv.FormatInt (Z.of_nat (String.length content)))
       (http.Header_Set "Content-Type" "application/octet-stream"
          (http.Header_Set "Content-Disposition"
             (content_disposition
                (filepath.Base (fullPath rootDir (http.URL_Path r))))
             http.new_response))).
Proof.
  intros Hlookup.
  set (path := fullPath rootDir (http.URL_Path r)) in *.
  set (node := (path, memfs.RegularFile content)).
  assert (Hopen : os_Open memfs.os path root = (inr node, root)).
  { cbn [os_Open memfs.os]. rewrite Hlookup. reflexivity. }
  rewrite (serve_file memfs.os build rootDir r root node root (memfs.stat node) root
             node root content None root Hopen eq_refl eq_refl Hopen eq_refl).
  reflexivity.
Qed.

(** C3.  For a regular file of [N] bytes in a tree that nothing else
    changes during the request, the stat of the dispatcher reports [N], the
    response has status 200, its Content-Length header is [N] in decimal,
    and its body is the content of the file, [N] bytes long. *)
Theorem file_response_length build rootDir r root content :
  memfs.lookup root (fullPath rootDir (http.URL_Path r))
  = Some (memfs.RegularFile content) ->
  let N := Z.of_nat (String.length content) in
  let out := resp (serve memfs.os build rootDir r root) in
  fi_Size (memfs.stat (fullPath rootDir (http.URL_Path r), memfs.RegularFile content)) = N
  /\ http.status out = 200
  /\ http.Header_Get "Content-Length" (http.header out) = Some (strconv.FormatInt N)
  /\ http.written out = content
  /\ Z.of_nat (String.length (http.written out)) = N.
Proof.
  intros Hlookup N out. unfold out.
  rewrite (memfs_serve_file build rootDir r root content Hlookup).
  repeat split.
Qed.

Lemma file_response_length_witness :
  let out := resp (serve memfs.os R1_EN "/srv/share" (GET "/docs/notes.txt") share) in
  fi_Size (memfs.stat (fullPath "/srv/share" "/docs/notes.txt",
                       memfs.RegularFile "hello, world")) = 12%Z
  /\ http.status out = 200
  /\ http.Header_Get "Content-Length" (http.header out) = Some "12"
  /\ http.written out = "hello, world"
  /\ Z.of_nat (String.length (http.written out)) = 12%Z.
Proof.
  apply (file_response_length R1_EN "/srv/share" (GET "/docs/notes.txt") share
           "hello, world").
  reflexivity.
Defined.

Lemma file_response_content_disposition_witness :
  let out := serve memfs.os R1_EN "/srv/share" (GET "/docs/notes.txt") share in
  http.Header_Get "Content-Disposition" (http.header (resp out))
  = Some ("attachment; filename=" ++ dq ++ "notes.txt" ++ dq
          ++ "; filename*=UTF-8''notes.txt")%string
  /\ ContainsByte "notes.txt" "034"%char = false.
Proof.
  pose (node := ("/srv/share/docs/notes.txt", memfs.RegularFile "hello, world")).
  apply (file_response_content_disposition memfs.os R1_EN "/srv/share"
           (GET "/docs/notes.txt") share node node share share share
           (memfs.stat node)); reflexivity.
Defined.

Lemma file_response_content_type_witness :
  http.Header_Get "Content-Type"
    (http.header (resp (serve memfs.os R1_EN "/srv/share" (GET "/<script>.txt") share)))
  = Some "application/octet-stream".
Proof.
  pose (node := ("/srv/share/<script>.txt", memfs.RegularFile "")).
  apply (file_response_content_type memfs.os R1_EN "/srv/share"
           (GET "/<script>.txt") share node node share share share
           (memfs.stat node)); reflexivity.
Defined.

Lemma second_open_failure_is_not_found_witness :
  let info := {| fi_Name := "notes.txt"; fi_Size := 12; fi_IsDir := false |} in
  let out := serve scripted.os R1_EN "/srv/share" (GET "/docs/notes.txt")
               [scripted.Opened (inr 3); scripted.Statted (inr info);
                scripted.Opened (inl (Err "no such file or directory"))] in
  http.status (resp out) = 404
  /\ http.written (resp out) = (open_error_text R1_EN ++ nl)%string
  /\ In (LogOpenError (Err "no such file or directory")) (logged out)
  /\ http.Header_Get "Content-Length" (http.header (resp out)) = None.
Proof.
  intros info.
  apply (second_open_failure_is_not_found scripted.os R1_EN "/srv/share"
           (GET "/docs/notes.txt")
           [scripted.Opened (inr 3); scripted.Statted (inr info);
            scripted.Opened (inl (Err "no such file or directory"))]
           3
           [scripted.Statted (inr info);
            scripted.Opened (inl (Err "no such file or directory"))]
           [scripted.Opened (inl (Err "no such file or directory"))]
           []
           info eq_refl eq_refl eq_refl (Err "no such file or directory") eq_refl).
Defined.

(** * More properties *)

Section Outcomes.

Context {W F : Type}.
Variable os : OS W F.
Variable build : Build.
Variable rootDir : string.
Variable r : http.Request.
Variable w : W.




End Outcomes.

Section Handles.

Context {W F : Type}.
Variable os : OS W F.
Variable build : Build.
Variable rootDir : string.
Variable r : http.Request.
Variable w : W.

Ltac traced_call H :=
  cbn [os_Open file_Stat os_ReadDir io_Copy traced.os fst snd];
  rewrite H; reflexivity.

(** X2.  Recording opens and closes changes nothing else of the run, and
    the record is nested: every file the handler opened is closed once
    before the handler returns, the file of [sendFile] before the file of
    the dispatcher, on every path, and at most two files are opened. *)
Theorem every_opened_file_is_closed :
  let base := serve os build rootDir r w in
  let out := serve (traced.os os) build rootDir r (w, []) in
  fst (world out) = world base
  /\ resp out = resp base
  /\ logged out = logged base
  /\ traced.nested (snd (world out))
  /\ length (snd (world out)) <= 4.
Proof.
  destruct (os_Open os (fullPath rootDir (http.URL_Path r)) w)
    as [[err | file] w1] eqn:Hopen.
  { rewrite (serve_open_failed os _ _ _ _ _ _ Hopen).
    rewrite (serve_open_failed (traced.os os) build rootDir r (w, []) err (w1, []))
      by (traced_call Hopen).
    cbn. repeat split; [constructor | lia]. }
  assert (Hopen' : os_Open (traced.os os) (fullPath rootDir (http.URL_Path r)) (w, [])
                   = (inr file, (w1, [traced.Opened file])))
    by (traced_call Hopen).
  destruct (file_Stat os file w1) as [[err | info] w2] eqn:Hstat.
  { rewrite (serve_stat_failed os _ _ _ _ _ _ _ _ Hopen Hstat).
    rewrite (serve_stat_failed (traced.os os) build rootDir r (w, []) file
               (w1, [traced.Opened file]) err (w2, [traced.Opened file]) Hopen')
      by (traced_call Hstat).
    cbn. repeat split; [apply (traced.nested_wrap file []); constructor | lia]. }
  assert (Hstat' : file_Stat (traced.os os) file (w1, [traced.Opened file])
                   = (inr info, (w2, [traced.Opened file])))
    by (traced_call Hstat).
  destruct (fi_IsDir info) eqn:Hdir.
  - destruct (os_ReadDir os (fullPath rootDir (http.URL_Path r)) w2) as [[err | files] w3] eqn:Hread.
    + rewrite (serve_readdir_failed os _ _ _ _ _ _ _ _ _ _ Hopen Hstat Hdir Hread).
      rewrite (serve_readdir_failed (traced.os os) build rootDir r (w, []) file
                 _ info _ err (w3, [traced.Opened file]) Hopen' Hstat' Hdir)
        by (traced_call Hread).
      cbn. repeat split; [apply (traced.nested_wrap file []); constructor | lia].
    + rewrite (serve_listing os _ _ _ _ _ _ _ _ _ _ Hopen Hstat Hdir Hread).
      rewrite (serve_listing (traced.os os) build rootDir r (w, []) file
                 _ info _ files (w3, [traced.Opened file]) Hopen' Hstat' Hdir)
        by (traced_call Hread).
      cbn. repeat split; [apply (traced.nested_wrap file []); constructor | lia].
  - destruct (os_Open os (fullPath rootDir (http.URL_Path r)) w2) as [[err | file'] w3] eqn:Hreopen.
    + rewrite (serve_reopen_failed os _ _ _ _ _ _ _ _ _ _ Hopen Hstat Hdir Hreopen).
      rewrite (serve_reopen_failed (traced.os os) build rootDir r (w, []) file
                 _ info _ err (w3, [traced.Opened file]) Hopen' Hstat' Hdir)
        by (traced_call Hreopen).
      cbn. repeat split; [apply (traced.nested_wrap file []); constructor | lia].
    + destruct (io_Copy os file' w3) as [[data failure] w4] eqn:Hcopy.
      rewrite (serve_file os _ _ _ _ _ _ _ _ _ _ _ _ _ Hopen Hstat Hdir Hreopen Hcopy).
      rewrite (serve_file (traced.os os) build rootDir r (w, []) file
                 _ info _ file' (w3, [traced.Opened file; traced.Opened file'])
                 data failure (w4, [traced.Opened file; traced.Opened file'])
                 Hopen' Hstat' Hdir)
        by (traced_call Hreopen || traced_call Hcopy).
      cbn. repeat split; [| lia].
      apply (traced.nested_wrap file [traced.Opened file'; traced.Closed file']).
      apply (traced.nested_wrap file' []). constructor.
Qed.

(** X4.  When the copy stops with an error the headers are already sent:
    the status stays 200, Content-Length stays what stat reported, the body
    is the bytes copied so far, the error is logged, and both files are
    closed. *)
Theorem interrupted_copy_keeps_the_headers
    file w1 info w2 file' w3 data err w4 :
  os_Open os (fullPath rootDir (http.URL_Path r)) w = (inr file, w1) ->
  file_Stat os file w1 = (inr info, w2) ->
  fi_IsDir info = false ->
  os_Open os (fullPath rootDir (http.URL_Path r)) w2 = (inr file', w3) ->
  io_Copy os file' w3 = ((data, Some err), w4) ->
  let out := serve os build rootDir r w in
  http.status (resp out) = 200
  /\ http.written (resp out) = data
  /\ http.Header_Get "Content-Length" (http.header (resp out))
     = Some (strconv.FormatInt (fi_Size info))
  /\ In (LogTransferError err) (logged out)
  /\ world out = file_Close os file (file_Close os file' w4).
Proof.
  intros Hopen Hstat Hdir Hreopen Hcopy out. unfold out.
  rewrite (serve_file os _ _ _ _ _ _ _ _ _ _ _ _ _ Hopen Hstat Hdir Hreopen Hcopy).
  cbn [resp logged world]. repeat split.
  apply in_or_app; right; left; reflexivity.
Qed.

End Handles.

Lemma interrupted_copy_keeps_the_headers_witness :
  let info := {| fi_Name := "notes.txt"; fi_Size := 12; fi_IsDir := false |} in
  let script :=
    [scripted.Opened (inr 3); scripted.Statted (inr info); scripted.Opened (inr 4);
     scripted.Copied ("hello", Some (Err "write: broken pipe"))] in
  let out := serve scripted.os R1_EN "/srv/share" (GET "/docs/notes.txt") script in
  http.status (resp out) = 200
  /\ http.written (resp out) = "hello"
  /\ http.Header_Get "Content-Length" (http.header (resp out)) = Some "12"
  /\ In (LogTransferError (Err "write: broken pipe")) (logged out)
  /\ world out = [].
Proof.
  intros info script.
  apply (interrupted_copy_keeps_the_headers scripted.os R1_EN "/srv/share"
           (GET "/docs/notes.txt") script 3 (tl script) info (tl (tl script))
           4 (tl (tl (tl script))) "hello" (Err "write: broken pipe") []);
    reflexivity.
Defined.

Lemma count_byte_app c a b :
  count_byte c (a ++ b) = count_byte c a + count_byte c b.
Proof.
  induction a as [| d a IH]; [reflexivity |].
  cbn [String.append count_byte]. rewrite IH. lia.
Qed.

Lemma count_byte_concat_all c (A : Type) (f : A -> string) k l :
  (forall x, count_byte c (f x) = k) ->
  count_byte c (concat_all (map f l)) = k * length l.
Proof.
  intros Hf. induction l as [| x l IH]; [cbn; lia |].
  cbn [map concat_all length]. rewrite count_byte_app, Hf, IH. lia.
Qed.

Lemma count_htmlReplacer_byte c d rest :
  In c markup ->
  count_byte c (template.htmlReplacer (String d rest))
  = count_byte c (template.htmlReplacer rest).
Proof.
  intros [<- | [<- | [<- | []]]];
    destruct d as [[] [] [] [] [] [] [] []]; reflexivity.
Qed.

Lemma count_htmlReplacer c s :
  In c markup -> count_byte c (template.htmlReplacer s) = 0.
Proof.
  intros Hc. induction s as [| d rest IH]; [reflexivity |].
  rewrite (count_htmlReplacer_byte c d rest Hc); exact IH.
Qed.

Lemma count_href_attr c u :
  In c markup ->
  count_byte c (href_attr u) = count_byte c ("<a href=" ++ dq ++ dq ++ ">").
Proof.
  intros Hc. unfold href_attr, template.href_value, template.attrEscaper.
  rewrite !count_byte_app, (count_htmlReplacer c _ Hc).
  rewrite ?count_byte_app. lia.
Qed.

Lemma count_file_item_EN c f :
  In c markup ->
  count_byte c (file_item_EN f)
  = count_byte c (file_item_EN {| URL := ""; Name := ""; IsDir := false |}).
Proof.
  intros Hc. unfold file_item_EN.
  rewrite !count_byte_app, !(count_href_attr c _ Hc).
  destruct (IsDir f); cbn [IsDir Name];
    rewrite !count_byte_app; unfold template.htmlEscaper;
    rewrite !(count_htmlReplacer c _ Hc);
    destruct Hc as [<- | [<- | [<- | []]]]; reflexivity.
Qed.

Lemma count_file_item_ZH c f :
  In c markup ->
  count_byte c (file_item_ZH f)
  = count_byte c (file_item_ZH {| URL := ""; Name := ""; IsDir := false |}).
Proof.
  intros Hc. unfold file_item_ZH.
  rewrite !count_byte_app, !(count_href_attr c _ Hc).
  destruct (IsDir f); cbn [IsDir Name];
    rewrite !count_byte_app; unfold template.htmlEscaper;
    rewrite !(count_htmlReplacer c _ Hc);
    destruct Hc as [<- | [<- | [<- | []]]]; reflexivity.
Qed.

Ltac count_page Hc :=
  rewrite ?count_byte_app;
  cbn [listing RelPath HasParent ParentPath Files];
  rewrite ?count_byte_app, ?(count_href_attr _ _ Hc), ?length_map;
  unfold template.htmlEscaper, template.rcdataEscaper;
  rewrite ?(count_htmlReplacer _ _ Hc).

(** X5.  In the page of either build the number of [<], of [>] and of
    double quotes is fixed by the number of entries and by whether the
    parent link is shown: no name and no path adds a byte that opens or
    closes a tag or an attribute value. *)
Theorem listing_markup_is_fixed relPath files :
  let parent := if relPath =? "" then 0 else 1 in
  let n := length files in
  let en := dirListTemplate R1_EN (listing relPath files) in
  let zh := dirListTemplate R1_ZH (listing relPath files) in
  count_byte "<" en = 15 + 4 * parent + 6 * n
  /\ count_byte ">" en = 15 + 4 * parent + 6 * n
  /\ count_byte "034" en = 2 + 2 * parent + 2 * n
  /\ count_byte "<" zh = 17 + 4 * parent + 6 * n
  /\ count_byte ">" zh = 17 + 4 * parent + 6 * n
  /\ count_byte "034" zh = 14 + 2 * parent + 2 * n.
Proof.
  cbv zeta. cbn [dirListTemplate R1_EN R1_ZH].
  assert (Hlt : In "<"%char markup) by (left; reflexivity).
  assert (Hgt : In ">"%char markup) by (right; left; reflexivity).
  assert (Hdq : In "034"%char markup) by (right; right; left; reflexivity).
  unfold dirListTemplate_EN, dirListTemplate_ZH, parent_link_EN, parent_link_ZH.
  repeat split.
  - count_page Hlt.
    rewrite (count_byte_concat_all _ _ file_item_EN _ _
               (fun f => count_file_item_EN _ f Hlt)), length_map.
    destruct (relPath =? ""); cbn [negb]; count_page Hlt; cbn; lia.
  - count_page Hgt.
    rewrite (count_byte_concat_all _ _ file_item_EN _ _
               (fun f => count_file_item_EN _ f Hgt)), length_map.
    destruct (relPath =? ""); cbn [negb]; count_page Hgt; cbn; lia.
  - count_page Hdq.
    rewrite (count_byte_concat_all _ _ file_item_EN _ _
               (fun f => count_file_item_EN _ f Hdq)), length_map.
    destruct (relPath =? ""); cbn [negb]; count_page Hdq; cbn; lia.
  - count_page Hlt.
    rewrite (count_byte_concat_all _ _ file_item_ZH _ _
               (fun f => count_file_item_ZH _ f Hlt)), length_map.
    destruct (relPath =? ""); cbn [negb]; count_page Hlt; cbn; lia.
  - count_page Hgt.
    rewrite (count_byte_concat_all _ _ file_item_ZH _ _
               (fun f => count_file_item_ZH _ f Hgt)), length_map.
    destruct (relPath =? ""); cbn [negb]; count_page Hgt; cbn; lia.
  - count_page Hdq.
    rewrite (count_byte_concat_all _ _ file_item_ZH _ _
               (fun f => count_file_item_ZH _ f Hdq)), length_map.
    destruct (relPath =? ""); cbn [negb]; count_page Hdq; cbn; lia.
Qed.

(** *** Links of names without a colon *)

Lemma PathEscape_colon_byte c rest :
  ContainsByte (url.PathEscape (String c rest)) ":"%char
  = Ascii.eqb c ":"%char || ContainsByte (url.PathEscape rest) ":"%char.
Proof.
  destruct c as [[] [] [] [] [] [] [] []]; reflexivity.
Qed.

Lemma PathEscape_keeps_colons p :
  ContainsByte (url.PathEscape p) ":"%char = ContainsByte p ":"%char.
Proof.
  induction p as [| c rest IH]; [reflexivity |].
  rewrite PathEscape_colon_byte, IH. reflexivity.
Qed.

Lemma CutBefore_none s c :
  ContainsByte s c = false -> CutBefore s c = None.
Proof.
  induction s as [| d s IH]; [reflexivity |].
  cbn [ContainsByte CutBefore]. destruct (Ascii.eqb d c); [discriminate |].
  cbn [orb]. intros H. rewrite (IH H). reflexivity.
Qed.

Lemma attrEscaper_plain_byte c rest :
  ContainsByte (String c "") "&"%char = false ->
  ContainsByte (String c "") "+"%char = false ->
  template.attrEscaper (url.PathEscape (String c rest))
  = (url.PathEscape (String c "") ++ template.attrEscaper (url.PathEscape rest))%string.
Proof.
  destruct c as [[] [] [] [] [] [] [] []]; intros H1 H2;
    try discriminate H1; try discriminate H2; reflexivity.
Qed.

Lemma attrEscaper_plain p :
  ContainsByte p "&"%char = false ->
  ContainsByte p "+"%char = false ->
  template.attrEscaper (url.PathEscape p) = url.PathEscape p.
Proof.
  induction p as [| c rest IH]; [reflexivity |].
  cbn [ContainsByte]. intros H1 H2.
  apply orb_false_iff in H1 as [Hc1 Hr1]. apply orb_false_iff in H2 as [Hc2 Hr2].
  rewrite attrEscaper_plain_byte, (IH Hr1 Hr2), <- PathEscape_byte;
    [reflexivity | cbn; rewrite Hc1; reflexivity | cbn; rewrite Hc2; reflexivity].
Qed.

(** X6.  When the joined path of an entry holds no colon, the link written
    to the page is the URL [listDir] computed, escaped for the attribute
    value; when the path holds no [&] and no [+] either, the two are the
    same text. *)
Theorem colon_free_link_is_kept relPath name isDir :
  let path := filepath.ToSlash (filepath.Join [relPath; name]) in
  ContainsByte path ":"%char = false ->
  map (fun f => href_attr (URL f))
      (Files (listing relPath [{| de_Name := name; de_IsDir := isDir |}]))
  = ["<a href=" ++ dq ++ template.attrEscaper (url.PathEscape path) ++ dq ++ ">"]%string
  /\ (ContainsByte path "&"%char = false ->
      ContainsByte path "+"%char = false ->
      template.attrEscaper (url.PathEscape path) = url.PathEscape path).
Proof.
  intros path Hcolon. split; [| apply attrEscaper_plain].
  cbn [listing Files map URL de_Name]. fold path.
  unfold href_attr. rewrite href_of_accepted_url; [reflexivity |].
  unfold template.isSafeURL.
  rewrite CutBefore_none; [reflexivity |].
  rewrite PathEscape_keeps_colons. exact Hcolon.
Qed.

Lemma colon_free_link_is_kept_witness :
  map (fun f => href_attr (URL f))
      (Files (listing "docs" [{| de_Name := "notes & drafts.txt"; de_IsDir := false |}]))
  = ["<a href=" ++ dq ++ "docs%2Fnotes%20&amp;%20drafts.txt" ++ dq ++ ">"]%string.
Proof.
  apply (colon_free_link_is_kept "docs" "notes & drafts.txt" false). reflexivity.
Defined.

(** *** Percent-encoding loses nothing *)

Lemma percent_decode_plain c rest :
  Ascii.eqb c "%"%char = false ->
  percent_decode (String c rest) = String c (percent_decode rest).
Proof.
  intros Hc. destruct rest as [| a [| b rest]]; cbn [percent_decode];
    try rewrite Hc; reflexivity.
Qed.

Lemma percent_decode_byte c rest :
  percent_decode (url.PathEscape (String c rest))
  = String c (percent_decode (url.PathEscape rest)).
Proof.
  destruct c as [[] [] [] [] [] [] [] []];
    first
      [ reflexivity
      | lazymatch goal with
        | |- percent_decode (url.PathEscape (String ?c ?r)) = _ =>
            change (url.PathEscape (String c r)) with (String c (url.PathEscape r));
            apply percent_decode_plain; reflexivity
        end ].
Qed.

Lemma percent_decode_PathEscape s : percent_decode (url.PathEscape s) = s.
Proof.
  induction s as [| c rest IH]; [reflexivity |].
  rewrite percent_decode_byte, IH. reflexivity.
Qed.

(** *** The path of an entry *)

Lemma strings_Join_cons x rest sep :
  rest <> [] -> strings_Join (x :: rest) sep = (x ++ sep ++ strings_Join rest sep)%string.
Proof. destruct rest; [congruence | reflexivity]. Qed.

Lemma append_cancel_l x a b : (x ++ a)%string = (x ++ b)%string -> a = b.
Proof.
  induction x as [| c x IH]; [trivial |].
  cbn [String.append]. intros H. injection H as H. apply IH, H.
Qed.

Lemma strings_Join_last_injective l n1 n2 :
  strings_Join (l ++ [n1]) "/" = strings_Join (l ++ [n2]) "/" -> n1 = n2.
Proof.
  induction l as [| x l IH]; [trivial |].
  cbn [app]. rewrite !strings_Join_cons by (destruct l; discriminate).
  intros H. apply append_cancel_l, append_cancel_l in H. apply IH, H.
Qed.

Lemma strings_Join_last_not_empty l name :
  name <> "" -> strings_Join (l ++ [name]) "/" <> "".
Proof.
  intros Hname. destruct l as [| x l]; [exact Hname |].
  pose proof (Join_two_has_separator x l name) as H.
  intros E. rewrite E in H. discriminate.
Qed.

Lemma entry_name_not_empty name : entry_name name = true -> name <> "".
Proof. intros H ->. discriminate. Qed.

Lemma Clean_entry_name name : entry_name name = true -> filepath.Clean name = name.
Proof.
  intros Hname.
  assert (Hsep : sep_free name = true)
    by (apply andb_true_iff in Hname as [_ H]; exact H).
  assert (Hr : filepath.rooted name = false).
  { destruct name as [| c name]; [reflexivity |].
    unfold sep_free in Hsep; cbn in Hsep |- *.
    unfold filepath.Separator. destruct (Ascii.eqb c "/"); [discriminate | reflexivity]. }
  unfold filepath.Clean, filepath.clean_elements. rewrite Hr; cbv zeta.
  rewrite (elements_sep_free name Hsep). cbn [fold_left].
  rewrite (clean_step_entry _ _ _ Hname). cbn [rev app strings_Join].
  rewrite (proj2 (String.eqb_neq _ _) (entry_name_not_empty _ Hname)). reflexivity.
Qed.

(** Where [Join] puts an entry of the directory [relPath]. *)
Lemma Join_entry_name relPath name :
  entry_name name = true ->
  relPath <> "" ->
  filepath.Join [relPath; name]
  = ((if filepath.rooted relPath then "/" else "")
     ++ strings_Join
          (filepath.clean_elements (filepath.rooted relPath) (filepath.elements relPath)
           ++ [name]) "/")%string.
Proof.
  intros Hname Hne.
  cbn [filepath.Join]. rewrite (proj2 (String.eqb_neq _ _) Hne).
  change (strings_Join [relPath; name] "/") with (relPath ++ String "/"%char name)%string.
  unfold filepath.Clean.
  rewrite (rooted_app _ _ Hne), elements_app_sep.
  unfold filepath.clean_elements. rewrite fold_left_app.
  assert (Hsep : sep_free name = true)
    by (apply andb_true_iff in Hname as [_ H]; exact H).
  rewrite (elements_sep_free name Hsep). cbn [fold_left].
  rewrite (clean_step_entry _ _ _ Hname). cbn [rev].
  pose proof (strings_Join_last_not_empty
                (rev (fold_left (filepath.clean_step (filepath.rooted relPath))
                        (filepath.elements relPath) []))
                name (entry_name_not_empty _ Hname)) as Hout.
  destruct (filepath.rooted relPath); cbv zeta.
  - rewrite (proj2 (String.eqb_neq (String filepath.Separator _) "")) by discriminate.
    reflexivity.
  - rewrite (proj2 (String.eqb_neq _ _) Hout). reflexivity.
Qed.

Lemma Join_entry_injective relPath n1 n2 :
  entry_name n1 = true -> entry_name n2 = true ->
  filepath.Join [relPath; n1] = filepath.Join [relPath; n2] -> n1 = n2.
Proof.
  intros H1 H2. destruct (String.eqb_spec relPath "") as [-> | Hne].
  - cbn [filepath.Join String.eqb strings_Join].
    rewrite (proj2 (String.eqb_neq _ _) (entry_name_not_empty _ H1)),
      (proj2 (String.eqb_neq _ _) (entry_name_not_empty _ H2)),
      (Clean_entry_name _ H1), (Clean_entry_name _ H2). trivial.
  - rewrite (Join_entry_name _ _ H1 Hne), (Join_entry_name _ _ H2 Hne).
    intros H. apply append_cancel_l in H.
    apply strings_Join_last_injective in H. exact H.
Qed.

(** X7.  Two entries of a directory with different names never get the same
    link URL: joining onto the relative path and percent-encoding lose
    nothing of the name. *)
Theorem distinct_entries_get_distinct_urls relPath e1 e2 :
  entry_name (de_Name e1) = true ->
  entry_name (de_Name e2) = true ->
  de_Name e1 <> de_Name e2 ->
  map URL (Files (listing relPath [e1])) <> map URL (Files (listing relPath [e2])).
Proof.
  intros H1 H2 Hne Heq. apply Hne.
  cbn [listing Files map URL] in Heq. injection Heq as Heq.
  apply (f_equal percent_decode) in Heq.
  rewrite !percent_decode_PathEscape in Heq.
  apply (Join_entry_injective relPath _ _ H1 H2 Heq).
Qed.

Lemma distinct_entries_get_distinct_urls_witness :
  map URL (Files (listing "docs" [{| de_Name := "a b"; de_IsDir := false |}]))
  <> map URL (Files (listing "docs" [{| de_Name := "a%20b"; de_IsDir := false |}])).
Proof.
  apply distinct_entries_get_distinct_urls; [reflexivity | reflexivity | discriminate].
Defined.

Lemma all_bytes_app p a b : all_bytes p (a ++ b) = all_bytes p a && all_bytes p b.
Proof.
  induction a as [| c a IH]; [reflexivity |].
  cbn [String.append all_bytes]. rewrite IH, andb_assoc. reflexivity.
Qed.

Lemma PathEscape_printable_byte c rest :
  all_bytes printable (url.PathEscape (String c rest))
  = all_bytes printable (url.PathEscape rest).
Proof.
  destruct c as [[] [] [] [] [] [] [] []]; reflexivity.
Qed.

Lemma PathEscape_printable s : all_bytes printable (url.PathEscape s) = true.
Proof.
  induction s as [| c rest IH]; [reflexivity |].
  rewrite PathEscape_printable_byte; exact IH.
Qed.

Lemma PathEscape_quote_count_byte c rest :
  count_byte "034" (url.PathEscape (String c rest))
  = count_byte "034" (url.PathEscape rest).
Proof.
  destruct c as [[] [] [] [] [] [] [] []]; reflexivity.
Qed.

Lemma PathEscape_quote_count s : count_byte "034" (url.PathEscape s) = 0.
Proof.
  induction s as [| c rest IH]; [reflexivity |].
  rewrite PathEscape_quote_count_byte; exact IH.
Qed.

Lemma content_disposition_is_well_formed fileName :
  all_bytes printable (content_disposition fileName) = true
  /\ count_byte "034" (content_disposition fileName) = 2.
Proof.
  unfold content_disposition. split.
  - rewrite !all_bytes_app, !PathEscape_printable. reflexivity.
  - rewrite !count_byte_app, !PathEscape_quote_count. reflexivity.
Qed.

(** X8.  Whatever bytes the file name holds, the Content-Disposition header
    of a file response consists of printable ASCII only (no line break, no
    control byte) and holds exactly the two double quotes that delimit the
    quoted name. *)
Theorem file_header_is_printable {W F} (os : OS W F) build rootDir r w
    file w1 info w2 file' w3 :
  os_Open os (fullPath rootDir (http.URL_Path r)) w = (inr file, w1) ->
  file_Stat os file w1 = (inr info, w2) ->
  fi_IsDir info = false ->
  os_Open os (fullPath rootDir (http.URL_Path r)) w2 = (inr file', w3) ->
  exists value,
    http.Header_Get "Content-Disposition"
      (http.header (resp (serve os build rootDir r w))) = Some value
    /\ all_bytes printable value = true
    /\ count_byte "034" value = 2.
Proof.
  intros Hopen Hstat Hfile Hreopen.
  destruct (file_response_headers os build rootDir r w file file' w1 w2 w3 info
              Hopen Hstat Hfile Hreopen) as [-> _].
  exists (content_disposition (fi_Name info)).
  split; [reflexivity | apply content_disposition_is_well_formed].
Qed.

Lemma file_header_is_printable_witness :
  exists value,
    http.Header_Get "Content-Disposition"
      (http.header (resp (serve memfs.os R1_EN "/srv/share" (GET "/<script>.txt") share)))
    = Some value
    /\ all_bytes printable value = true
    /\ count_byte "034" value = 2.
Proof.
  pose (node := ("/srv/share/<script>.txt", memfs.RegularFile "")).
  apply (file_header_is_printable memfs.os R1_EN "/srv/share"
           (GET "/<script>.txt") share node share (memfs.stat node) share node share);
    reflexivity.
Defined.

Lemma prefix_empty s : prefix "" s = true.
Proof. destruct s; reflexivity. Qed.

Lemma prefix_cons c a b : prefix (String c a) (String c b) = prefix a b.
Proof.
  cbn [prefix]. destruct (ascii_dec c c) as [_ | Hne]; [reflexivity | congruence].
Qed.

Lemma prefix_app a b : prefix a (a ++ b) = true.
Proof.
  induction a as [| c a IH]; [apply prefix_empty |].
  cbn [String.append]. rewrite prefix_cons. exact IH.
Qed.

Lemma prefix_app_both x a b : prefix (x ++ a) (x ++ b) = prefix a b.
Proof.
  induction x as [| c x IH]; [reflexivity |].
  cbn [String.append]. rewrite prefix_cons. exact IH.
Qed.

Lemma clean_step_name r out e :
  is_name e = true -> filepath.clean_step r out e = e :: out.
Proof.
  unfold is_name, filepath.clean_step. intros H. apply negb_true_iff in H.
  apply orb_false_iff in H as [H Hdd]. rewrite H, Hdd. reflexivity.
Qed.

Lemma fold_names r names out :
  Forall (fun e => is_name e = true) names ->
  fold_left (filepath.clean_step r) names out = rev names ++ out.
Proof.
  revert out. induction names as [| e names IH]; intros out Hall; [reflexivity |].
  inversion Hall as [| ? ? He Hnames]; subst. cbn [fold_left rev].
  rewrite (clean_step_name _ _ _ He), (IH _ Hnames), <- app_assoc. reflexivity.
Qed.

(** Without [..] elements nothing written is ever removed. *)
Lemma fold_without_dotdot r es out :
  Forall (fun e => e <> "..") es ->
  exists pushed,
    fold_left (filepath.clean_step r) es out = pushed ++ out
    /\ Forall (fun e => is_name e = true) pushed.
Proof.
  revert out. induction es as [| e es IH]; intros out Hall.
  - exists []. split; [reflexivity | constructor].
  - inversion Hall as [| ? ? He Hes]; subst. cbn [fold_left].
    destruct ((e =? "") || (e =? ".")) eqn:Hskip.
    + unfold filepath.clean_step. rewrite Hskip. apply IH, Hes.
    + assert (Hname : is_name e = true).
      { unfold is_name. rewrite Hskip, (proj2 (String.eqb_neq _ _) He). reflexivity. }
      rewrite (clean_step_name _ _ _ Hname).
      destruct (IH (e :: out) Hes) as [pushed [-> Hpushed]].
      exists (pushed ++ [e]). split; [rewrite <- app_assoc; reflexivity |].
      apply Forall_app; split; [exact Hpushed | repeat constructor; exact Hname].
Qed.

Lemma clean_step_rooted_names out e :
  Forall (fun e => is_name e = true) out ->
  Forall (fun e => is_name e = true) (filepath.clean_step true out e).
Proof.
  intros Hout. unfold filepath.clean_step.
  destruct ((e =? "") || (e =? ".")) eqn:Hskip; [exact Hout |].
  destruct (e =? "..") eqn:Hdd.
  - destruct out as [| top below]; [constructor |].
    inversion Hout; subst. destruct (top =? ".."); assumption.
  - constructor; [| exact Hout]. unfold is_name. rewrite Hskip, Hdd. reflexivity.
Qed.

Lemma fold_rooted_names es out :
  Forall (fun e => is_name e = true) out ->
  Forall (fun e => is_name e = true) (fold_left (filepath.clean_step true) es out).
Proof.
  revert out. induction es as [| e es IH]; intros out Hout; [exact Hout |].
  cbn [fold_left]. apply IH, clean_step_rooted_names, Hout.
Qed.

Lemma clean_elements_sep_free r p :
  Forall (fun e => sep_free e = true) (filepath.clean_elements r (filepath.elements p)).
Proof.
  apply Forall_rev, fold_clean_sep_free; [apply elements_all_sep_free | constructor].
Qed.

Lemma Clean_rooted p :
  filepath.rooted p = true ->
  filepath.Clean p
  = String "/"%char
      (strings_Join (filepath.clean_elements true (filepath.elements p)) "/").
Proof.
  intros Hr. unfold filepath.Clean. rewrite Hr; cbv zeta.
  rewrite (proj2 (String.eqb_neq (String filepath.Separator _) "")) by discriminate.
  reflexivity.
Qed.

Lemma is_name_not_dotdot l :
  Forall (fun e => is_name e = true) l -> Forall (fun e => e <> "..") l.
Proof.
  apply Forall_impl. intros e He ->. discriminate.
Qed.

Lemma stack_ok_names out :
  stack_ok out -> out <> [] -> last out "" <> ".." ->
  Forall (fun e => is_name e = true) out.
Proof.
  induction 1 as [out Hall | e out Hreal Hok IH]; intros Hne Hlast.
  - exfalso. apply Hlast. clear Hlast.
    induction out as [| x out IH]; [congruence |].
    inversion Hall as [| ? ? Hx Hrest]; subst.
    destruct out as [| y out]; [reflexivity |].
    apply IH; [exact Hrest | discriminate].
  - constructor; [unfold is_name; rewrite Hreal; reflexivity |].
    destruct out as [| y out]; [constructor |].
    apply IH; [discriminate | exact Hlast].
Qed.

Lemma Join_starts_with_dotdot l :
  escapes (strings_Join (".." :: l) "/") = true.
Proof.
  destruct l as [| x l]; [reflexivity |].
  change (strings_Join (".." :: x :: l) "/")
    with ("../" ++ strings_Join (x :: l) "/")%string.
  unfold escapes. apply orb_true_iff; right. apply prefix_app.
Qed.

Lemma hd_rev_last (l : list string) : hd "" (rev l) = last l "".
Proof.
  induction l as [| x l IH]; [reflexivity |].
  cbn [rev]. destruct l as [| y l]; [reflexivity |].
  change (last (x :: y :: l) "") with (last (y :: l) ""). rewrite <- IH.
  cbn [rev]. destruct (rev l ++ [y]) eqn:E; [| reflexivity].
  destruct (rev l); discriminate.
Qed.

(** The elements of a cleaned path: none is [..] unless the path escapes. *)
Lemma Clean_elements_without_dotdot p :
  escapes (filepath.Clean p) = false ->
  Forall (fun e => e <> "..") (filepath.elements (filepath.Clean p)).
Proof.
  destruct (filepath.rooted p) eqn:Hr.
  - intros _. rewrite (Clean_rooted p Hr).
    set (L := filepath.clean_elements true (filepath.elements p)).
    assert (Hnames : Forall (fun e => is_name e = true) L)
      by (apply Forall_rev, fold_rooted_names; constructor).
    cbn [filepath.elements]. cbn.
    constructor; [discriminate |].
    assert (Hfree : Forall (fun e => sep_free e = true) L)
      by apply clean_elements_sep_free.
    destruct L as [| x l]; [repeat constructor; discriminate |].
    rewrite elements_Join; [| discriminate | exact Hfree].
    apply is_name_not_dotdot, Hnames.
  - unfold filepath.Clean. rewrite Hr; cbv zeta.
    set (S0 := fold_left (filepath.clean_step false) (filepath.elements p) []).
    unfold filepath.clean_elements. fold S0.
    assert (Hok : stack_ok S0) by (apply fold_clean_ok, ok_dots; constructor).
    destruct (String.eqb_spec (strings_Join (rev S0) "/") "") as [_ | Hne].
    + intros _. repeat constructor. discriminate.
    + intros Hesc.
      assert (Hnil : rev S0 <> [])
        by (intros E; rewrite E in Hne; apply Hne; reflexivity).
      rewrite elements_Join; [| exact Hnil | apply (clean_elements_sep_free false p)].
      apply is_name_not_dotdot, Forall_rev, stack_ok_names; [exact Hok | |].
      * intros E; rewrite E in Hnil; apply Hnil; reflexivity.
      * rewrite <- hd_rev_last. intros Hdd.
        destruct (rev S0) as [| x l]; [congruence |]. cbn [hd] in Hdd. subst x.
        rewrite Join_starts_with_dotdot in Hesc. discriminate.
Qed.

Lemma append_assoc (a b c : string) : ((a ++ b) ++ c = a ++ (b ++ c))%string.
Proof.
  induction a as [| x a IH]; [reflexivity |].
  cbn [String.append]. rewrite IH. reflexivity.
Qed.

Lemma append_nil_r (a : string) : (a ++ "")%string = a.
Proof.
  induction a as [| x a IH]; [reflexivity |].
  cbn [String.append]. rewrite IH. reflexivity.
Qed.

Lemma strings_Join_app a b :
  a <> [] -> b <> [] ->
  strings_Join (a ++ b) "/"
  = (strings_Join a "/" ++ "/" ++ strings_Join b "/")%string.
Proof.
  intros Ha Hb. induction a as [| x a IH]; [congruence |].
  destruct a as [| y a].
  - cbn [app]. rewrite strings_Join_cons by exact Hb. reflexivity.
  - change ((x :: y :: a) ++ b) with (x :: ((y :: a) ++ b)).
    rewrite strings_Join_cons by discriminate.
    rewrite IH by discriminate.
    rewrite (strings_Join_cons x (y :: a)) by discriminate.
    rewrite !append_assoc. reflexivity.
Qed.

(** Joining names that hold no [..] onto a cleaned rooted path. *)
Lemma Clean_below_root root c :
  filepath.rooted root = true ->
  filepath.Clean root = root ->
  Forall (fun e => e <> "..") (filepath.elements c) ->
  exists below,
    Forall (fun e => is_name e = true) below
    /\ filepath.Clean (root ++ String "/"%char c)
       = String "/"%char
           (strings_Join
              (filepath.clean_elements true (filepath.elements root) ++ below) "/").
Proof.
  intros Hr Hclean Hc.
  assert (Hne : root <> "") by (intros ->; discriminate).
  rewrite Clean_rooted by (rewrite rooted_app; assumption).
  rewrite elements_app_sep. unfold filepath.clean_elements. rewrite fold_left_app.
  destruct (fold_without_dotdot true (filepath.elements c)
              (fold_left (filepath.clean_step true) (filepath.elements root) []) Hc)
    as [pushed [-> Hpushed]].
  exists (rev pushed). split; [apply Forall_rev, Hpushed |].
  rewrite rev_app_distr. reflexivity.
Qed.

Section Containment.

Variable rootDir : string.
Hypothesis Hrooted : filepath.rooted rootDir = true.
Hypothesis Hclean : filepath.Clean rootDir = rootDir.

Lemma fullPath_below_root reqPath :
  escapes (cleanedPath reqPath) = false ->
  exists below,
    Forall (fun e => is_name e = true) below
    /\ fullPath rootDir reqPath
       = String "/"%char
           (strings_Join
              (filepath.clean_elements true (filepath.elements rootDir) ++ below) "/").
Proof.
  intros Hesc.
  assert (Hne : rootDir <> "") by (intros E; rewrite E in Hrooted; discriminate).
  unfold fullPath. cbn [filepath.Join]. rewrite (proj2 (String.eqb_neq _ _) Hne).
  change (strings_Join [rootDir; cleanedPath reqPath] "/")
    with (rootDir ++ String "/"%char (cleanedPath reqPath))%string.
  apply Clean_below_root; [exact Hrooted | exact Hclean |].
  apply Clean_elements_without_dotdot, Hesc.
Qed.

(** X9.  For a root directory that is a cleaned absolute path, every request
    whose cleaned relative path does not begin with a [..] element resolves
    to the root itself or to a path below it. *)
Theorem resolved_path_stays_in_root reqPath :
  escapes (cleanedPath reqPath) = false ->
  prefix rootDir (fullPath rootDir reqPath) = true
  /\ (fullPath rootDir reqPath = rootDir
      \/ prefix (rootDir ++ "/") (fullPath rootDir reqPath) = true
      \/ rootDir = "/").
Proof.
  intros Hesc.
  destruct (fullPath_below_root reqPath Hesc) as [below [_ ->]].
  pose proof (Clean_rooted rootDir Hrooted) as Hroot. rewrite Hclean in Hroot.
  set (L0 := filepath.clean_elements true (filepath.elements rootDir)) in *.
  destruct below as [| b below].
  - rewrite app_nil_r, <- Hroot.
    split; [| left; reflexivity].
    rewrite <- (append_nil_r rootDir) at 2. apply prefix_app.
  - destruct L0 as [| x l0].
    + cbn [app]. rewrite Hroot. split; [apply (prefix_app "/") | right; right; reflexivity].
    + rewrite strings_Join_app by discriminate.
      change (String "/" (strings_Join (x :: l0) "/" ++ "/" ++ strings_Join (b :: below) "/"))
        with (String "/" (strings_Join (x :: l0) "/")
              ++ "/" ++ strings_Join (b :: below) "/")%string.
      rewrite <- Hroot. split; [apply prefix_app |].
      right; left. rewrite <- append_assoc. apply prefix_app.
Qed.

End Containment.

Lemma resolved_path_stays_in_root_witness :
  prefix "/srv/share" (fullPath "/srv/share" "/docs/../docs//notes.txt") = true
  /\ (fullPath "/srv/share" "/docs/../docs//notes.txt" = "/srv/share"
      \/ prefix ("/srv/share" ++ "/") (fullPath "/srv/share" "/docs/../docs//notes.txt")
         = true
      \/ "/srv/share" = "/").
Proof.
  apply (resolved_path_stays_in_root "/srv/share"); reflexivity.
Defined.

(** *** Cleaning twice *)

Lemma stack_ok_not_empty out :
  stack_ok out -> Forall (fun e => e <> "") out.
Proof.
  induction 1 as [out Hall | e out Hreal Hok IH].
  - revert Hall. apply Forall_impl. intros e <-. discriminate.
  - constructor; [| exact IH]. intros ->. discriminate.
Qed.

Lemma rooted_sep_free x : sep_free x = true -> filepath.rooted x = false.
Proof.
  destruct x as [| c x]; [reflexivity |].
  unfold sep_free; cbn. unfold filepath.Separator.
  destruct (Ascii.eqb c "/"); [discriminate | reflexivity].
Qed.

Lemma rooted_Join x l :
  x <> "" -> sep_free x = true -> filepath.rooted (strings_Join (x :: l) "/") = false.
Proof.
  intros Hne Hsep. destruct l as [| y l]; [apply rooted_sep_free, Hsep |].
  rewrite strings_Join_cons by discriminate.
  rewrite rooted_app by exact Hne. apply rooted_sep_free, Hsep.
Qed.

Theorem Clean_idempotent p : filepath.Clean (filepath.Clean p) = filepath.Clean p.
Proof.
  destruct (filepath.rooted p) eqn:Hr.
  - rewrite (Clean_rooted p Hr).
    set (L := filepath.clean_elements true (filepath.elements p)).
    assert (Hnames : Forall (fun e => is_name e = true) L)
      by (apply Forall_rev, fold_rooted_names; constructor).
    assert (Hfree : Forall (fun e => sep_free e = true) L)
      by apply clean_elements_sep_free.
    rewrite Clean_rooted by reflexivity. f_equal.
    destruct L as [| x l]; [reflexivity |].
    change (filepath.elements (String "/" (strings_Join (x :: l) "/")))
      with ("" :: filepath.elements (strings_Join (x :: l) "/")).
    rewrite elements_Join by (discriminate || exact Hfree).
    unfold filepath.clean_elements.
    change (fold_left (filepath.clean_step true) ("" :: x :: l) [])
      with (fold_left (filepath.clean_step true) (x :: l) []).
    rewrite (fold_names true _ [] Hnames), app_nil_r, rev_involutive. reflexivity.
  - set (S0 := fold_left (filepath.clean_step false) (filepath.elements p) []).
    assert (Hc : filepath.Clean p
                 = if strings_Join (rev S0) "/" =? ""
                   then "." else strings_Join (rev S0) "/")
      by (unfold filepath.Clean; rewrite Hr; reflexivity).
    rewrite Hc. clear Hc.
    assert (Hok : stack_ok S0) by (apply fold_clean_ok, ok_dots; constructor).
    assert (Hfree : Forall (fun e => sep_free e = true) (rev S0))
      by apply (clean_elements_sep_free false p).
    assert (Hfull : Forall (fun e => e <> "") (rev S0))
      by apply Forall_rev, stack_ok_not_empty, Hok.
    destruct (String.eqb_spec (strings_Join (rev S0) "/") "") as [_ | Hne];
      [reflexivity |].
    destruct (rev S0) as [| x l] eqn:HL; [exfalso; apply Hne; reflexivity |].
    inversion Hfull as [| ? ? Hx _]; subst.
    inversion Hfree as [| ? ? Hsx _]; subst.
    unfold filepath.Clean. rewrite (rooted_Join x l Hx Hsx); cbv zeta.
    rewrite elements_Join by (discriminate || exact Hfree).
    unfold filepath.clean_elements. rewrite <- HL, (replay_stack _ Hok), HL.
    rewrite (proj2 (String.eqb_neq _ _) Hne). reflexivity.
Qed.

Example TrimSpace_examples :
  strings_TrimSpace ("  /srv/share " ++ nl) = "/srv/share"
  /\ strings_TrimSpace (nl ++ bytes [9; 226; 128; 137] ++ "a b" ++ bytes [194; 160]) = "a b"
  /\ strings_TrimSpace (bytes [133; 32]) = bytes [133]
  /\ strings_TrimSpace "" = "".
Proof. repeat split; vm_compute; reflexivity. Qed.

Section StartupFacts.

Context {W : Type}.
Variable host : startup.Host W.
Variable TrimSpace : string -> string.

Lemma validateDirectory_verdict path w :
  startup.validateDirectory host path w
  = (startup.verdict host w path, snd (startup.validateDirectory host path w)).
Proof. unfold startup.verdict. destruct (startup.validateDirectory host path w); reflexivity. Qed.

Lemma verdict_is_directory path w :
  startup.verdict host w path = None <-> startup.is_directory host w path = true.
Proof.
  unfold startup.verdict, startup.is_directory, startup.validateDirectory.
  destruct (startup.os_Stat host path w) as [[[msg] | info] w']; cbn [fst].
  - split; discriminate.
  - destruct (fi_IsDir info); cbn; split; (reflexivity || discriminate).
Qed.


Lemma ReadString_line l rest :
  startup.line l -> startup.ReadString (l ++ rest) = (l, rest).
Proof.
  intros [body [-> Hbody]].
  induction body as [| c body IH]; [reflexivity |].
  cbn [ContainsByte] in Hbody. apply orb_false_iff in Hbody as [Hc Hbody].
  cbn [String.append startup.ReadString] in *. rewrite Hc, (IH Hbody). reflexivity.
Qed.

Lemma refused path w :
  startup.is_directory host w path = false ->
  (forall p w', snd (startup.os_Stat host p w') = w') ->
  startup.validateDirectory host path w = (Some (startup.rejection host w path), w).
Proof.
  intros Hdir Hquiet. unfold startup.rejection.
  rewrite validateDirectory_verdict.
  destruct (startup.verdict host w path) as [err |] eqn:Hv.
  - f_equal. unfold startup.validateDirectory.
    specialize (Hquiet path w).
    destruct (startup.os_Stat host path w) as [[[msg] | info] w']; cbn [snd] in *;
      [exact Hquiet | destruct (negb (fi_IsDir info)); exact Hquiet].
  - apply verdict_is_directory in Hv. congruence.
Qed.

Lemma accepted path w :
  startup.is_directory host w path = true ->
  (forall p w', snd (startup.os_Stat host p w') = w') ->
  startup.validateDirectory host path w = (None, w).
Proof.
  intros Hdir Hquiet. rewrite validateDirectory_verdict.
  rewrite (proj2 (verdict_is_directory path w) Hdir). f_equal.
  unfold startup.validateDirectory. specialize (Hquiet path w).
  destruct (startup.os_Stat host path w) as [[[msg] | info] w']; cbn [snd] in *;
    [exact Hquiet | destruct (negb (fi_IsDir info)); exact Hquiet].
Qed.

Lemma prompt_loop_rounds w bad good rest extra before dir :
  (forall p w', snd (startup.os_Stat host p w') = w') ->
  Forall startup.line bad -> startup.line good ->
  Forall (fun l => startup.is_directory host w (TrimSpace l) = false) bad ->
  startup.is_directory host w (TrimSpace good) = true ->
  startup.prompt_loop host TrimSpace (S (length bad) + extra)
    {| startup.stdin := concat_all bad ++ good ++ rest; startup.world := w;
       startup.logged := before; startup.rootDir := dir |}
  = Some {| startup.stdin := rest; startup.world := w;
            startup.logged := before ++ startup.retries host TrimSpace w bad ++ [startup.LogEnterPath];
            startup.rootDir := TrimSpace good |}.
Proof.
  intros Hquiet Hbad Hgood Hrefused Haccepted.
  revert before dir.
  induction bad as [| l bad IH]; intros before dir.
  - cbn [concat_all String.append length Nat.add startup.prompt_loop startup.stdin startup.world startup.logged].
    rewrite (ReadString_line good rest Hgood), (accepted _ _ Haccepted Hquiet).
    reflexivity.
  - inversion Hbad as [| ? ? Hl Hbad']; subst.
    inversion Hrefused as [| ? ? Hrl Hrefused']; subst.
    cbn [concat_all length Nat.add]. 
    change (startup.prompt_loop host TrimSpace (S (S (length bad + extra))))
      with (startup.prompt_loop host TrimSpace (S (S (length bad) + extra))).
    cbn [startup.prompt_loop startup.stdin startup.world startup.logged].
    rewrite append_assoc, (ReadString_line l _ Hl), (refused _ _ Hrl Hquiet).
    rewrite (IH Hbad' Hrefused'). unfold startup.retries. cbn [flat_map].
    rewrite <- !app_assoc. reflexivity.
Qed.

(** X12.  On a host whose files do not change, the loop takes the first
    line that names a directory: it leaves the input after that line
    unread and has logged, for each earlier line, the prompt and the reason
    of the refusal. *)
Theorem first_directory_line_is_taken w bad good rest extra :
  (forall p w', snd (startup.os_Stat host p w') = w') ->
  Forall startup.line bad -> startup.line good ->
  Forall (fun l => startup.is_directory host w (TrimSpace l) = false) bad ->
  startup.is_directory host w (TrimSpace good) = true ->
  startup.prompt_loop host TrimSpace (S (length bad) + extra)
    {| startup.stdin := concat_all bad ++ good ++ rest; startup.world := w;
       startup.logged := []; startup.rootDir := "" |}
  = Some {| startup.stdin := rest; startup.world := w;
            startup.logged := startup.retries host TrimSpace w bad ++ [startup.LogEnterPath];
            startup.rootDir := TrimSpace good |}.
Proof.
  intros. apply (prompt_loop_rounds w bad good rest extra [] ""); assumption.
Qed.

(** X13.  At the end of the input the loop does not stop: the read
    error is dropped, the empty path is validated again and again, and no
    number of rounds is enough when the empty path is no directory. *)
Theorem end_of_input_keeps_prompting fuel (s : startup.State W) :
  startup.stdin s = "" ->
  (forall w, startup.is_directory host w (TrimSpace "") = false) ->
  startup.prompt_loop host TrimSpace fuel s = None.
Proof.
  intros Hstdin Hnone. revert s Hstdin.
  induction fuel as [| fuel IH]; intros s Hstdin; [reflexivity |].
  cbn [startup.prompt_loop]. rewrite Hstdin. cbn [startup.ReadString].
  rewrite validateDirectory_verdict.
  destruct (startup.verdict host (startup.world s) (TrimSpace "")) as [err |] eqn:Hv.
  - apply IH. reflexivity.
  - apply verdict_is_directory in Hv. rewrite Hnone in Hv. discriminate.
Qed.

End StartupFacts.

Lemma memfs_host_is_quiet p w :
  snd (startup.os_Stat startup.memfs_host p w) = w.
Proof.
  cbn [startup.os_Stat startup.memfs_host].
  destruct (if p =? "" then None else memfs.lookup w p); reflexivity.
Qed.


Lemma first_directory_line_is_taken_witness :
  startup.prompt_loop startup.memfs_host strings_TrimSpace 5
    {| startup.stdin := "/nowhere" ++ nl ++ "/etc/passwd" ++ nl
                        ++ "  /srv/share " ++ nl ++ "/etc" ++ nl;
       startup.world := share; startup.logged := []; startup.rootDir := "" |}
  = Some {| startup.stdin := "/etc" ++ nl; startup.world := share;
            startup.logged :=
              [startup.LogEnterPath;
               startup.LogInvalidPath
                 (Err "path access error: stat /nowhere: no such file or directory");
               startup.LogEnterPath;
               startup.LogInvalidPath (Err "not a directory");
               startup.LogEnterPath];
            startup.rootDir := "/srv/share" |}.
Proof.
  apply (first_directory_line_is_taken startup.memfs_host strings_TrimSpace share
           ["/nowhere" ++ nl; "/etc/passwd" ++ nl]%string
           ("  /srv/share " ++ nl)%string ("/etc" ++ nl)%string 2).
  - apply memfs_host_is_quiet.
  - repeat constructor.
    + exists "/nowhere". split; reflexivity.
    + exists "/etc/passwd". split; reflexivity.
  - exists "  /srv/share ". split; reflexivity.
  - repeat constructor.
  - reflexivity.
Defined.

Lemma end_of_input_keeps_prompting_witness :
  startup.prompt_loop startup.memfs_host strings_TrimSpace 1000
    {| startup.stdin := ""; startup.world := share;
       startup.logged := []; startup.rootDir := "" |} = None.
Proof.
  apply (end_of_input_keeps_prompting startup.memfs_host strings_TrimSpace).
  - reflexivity.
  - intros w. reflexivity.
Defined.

Lemma CutBefore_no_sep s c host :
  CutBefore s c = Some host -> ContainsByte host c = false.
Proof.
  revert host. induction s as [| d s IH]; intros host; [discriminate |].
  cbn [CutBefore]. destruct (Ascii.eqb d c) eqn:Hd.
  - intros H; injection H as <-. reflexivity.
  - destruct (CutBefore s c) as [h |]; [| discriminate].
    intros H; injection H as <-. cbn [ContainsByte]. rewrite Hd. apply (IH h eq_refl).
Qed.

Lemma CutBefore_app host c rest :
  ContainsByte host c = false -> CutBefore (host ++ String c rest) c = Some host.
Proof.
  induction host as [| d host IH]; intros H.
  - cbn. rewrite Ascii.eqb_refl. reflexivity.
  - cbn [ContainsByte] in H. apply orb_false_iff in H as [Hd H].
    cbn [String.append CutBefore]. rewrite Hd, (IH H). reflexivity.
Qed.

(** X14.  When the dial succeeds, [getLocalIP] returns the local address
    up to its first colon: the result holds no colon, and it is the host
    when the address is a colon-free host followed by a port. *)
Theorem dialled_address_loses_its_port {W} (n : net.Net W) w localAddr w1 :
  net.Dial_udp n w = (inr localAddr, w1) ->
  ContainsByte (fst (net.getLocalIP n w)) ":"%char = false
  /\ (forall host port,
        localAddr = (host ++ ":" ++ port)%string ->
        ContainsByte host ":"%char = false ->
        fst (net.getLocalIP n w) = host).
Proof.
  intros Hdial. unfold net.getLocalIP. rewrite Hdial. cbn [fst].
  unfold net.before_colon. split.
  - destruct (CutBefore localAddr ":") as [host |] eqn:Hcut.
    + apply (CutBefore_no_sep _ _ _ Hcut).
    + clear Hdial. induction localAddr as [| d s IH]; [reflexivity |].
      cbn [CutBefore] in Hcut. cbn [ContainsByte].
      destruct (Ascii.eqb d ":"); [discriminate |].
      destruct (CutBefore s ":"); [discriminate |]. apply IH; reflexivity.
  - intros host port -> Hhost.
    change (host ++ ":" ++ port)%string with (host ++ String ":"%char port)%string.
    rewrite (CutBefore_app host ":" port Hhost). reflexivity.
Qed.

Lemma dotted_is_not_loopback ip4 :
  Byte.eqb (nth 0 ip4 Byte.x00) Byte.x7f = false ->
  prefix "127." (net.dotted ip4) = false.
Proof.
  unfold net.dotted. destruct (nth 0 ip4 Byte.x00); intros H;
    try discriminate H; reflexivity.
Qed.

Lemma first_address_spec addrs :
  match find net.usable addrs with
  | Some (net.IPNet ip) =>
      exists ip4, net.To4 ip = Some ip4
                  /\ net.IsLoopback ip = false
                  /\ net.first_address addrs = net.dotted ip4
  | _ => net.first_address addrs = "127.0.0.1"
  end.
Proof.
  induction addrs as [| [ip |] addrs IH]; [reflexivity | | exact IH].
  cbn [find net.usable net.first_address].
  destruct (net.IsLoopback ip) eqn:Hloop; cbn [negb andb]; [exact IH |].
  destruct (net.To4 ip) as [ip4 |] eqn:H4; [| exact IH].
  exists ip4. repeat split; assumption.
Qed.

(** X15.  When the dial fails, [getLocalIP] returns the dotted form of the
    first interface address that is not a loopback address and has a
    four-byte form, and [127.0.0.1] when there is none or when the
    interfaces cannot be listed; a listed loopback address is never
    shown. *)
Theorem fallback_address {W} (n : net.Net W) w err w1 :
  net.Dial_udp n w = (inl err, w1) ->
  let shown := fst (net.getLocalIP n w) in
  (shown = "127.0.0.1" \/ prefix "127." shown = false)
  /\ (forall failure w2,
        net.InterfaceAddrs n w1 = (inl failure, w2) -> shown = "127.0.0.1")
  /\ (forall addrs w2,
        net.InterfaceAddrs n w1 = (inr addrs, w2) ->
        match find net.usable addrs with
        | Some (net.IPNet ip) =>
            exists ip4, net.To4 ip = Some ip4 /\ shown = net.dotted ip4
        | _ => shown = "127.0.0.1"
        end).
Proof.
  intros Hdial shown. unfold shown, net.getLocalIP. rewrite Hdial.
  destruct (net.InterfaceAddrs n w1) as [[failure | addrs] w2]; cbn [fst].
  - split; [left; reflexivity |]. split; [reflexivity | discriminate].
  - pose proof (first_address_spec addrs) as Hspec.
    split; [| split; [discriminate |]].
    + destruct (find net.usable addrs) as [[ip |] |]; try (left; exact Hspec).
      destruct Hspec as [ip4 [H4 [Hloop ->]]]. right.
      apply dotted_is_not_loopback.
      unfold net.IsLoopback in Hloop. rewrite H4 in Hloop. exact Hloop.
    + intros addrs' w2' H. injection H as <- <-.
      destruct (find net.usable addrs) as [[ip |] |]; try exact Hspec.
      destruct Hspec as [ip4 [H4 [_ ->]]]. exists ip4. split; [exact H4 | reflexivity].
Qed.

Lemma dialled_address_loses_its_port_witness :
  fst (net.getLocalIP (net_examples.fixed (inr "192.168.1.10:51234") (inr [])) tt)
  = "192.168.1.10".
Proof.
  destruct (dialled_address_loses_its_port
              (net_examples.fixed (inr "192.168.1.10:51234") (inr []))
              tt "192.168.1.10:51234" tt eq_refl) as [_ Hhost].
  apply (Hhost "192.168.1.10" "51234"); reflexivity.
Defined.

Lemma fallback_address_witness :
  fst (net.getLocalIP
         (net_examples.fixed net_examples.no_route (inr net_examples.interfaces)) tt)
  = "192.168.1.10".
Proof.
  destruct (fallback_address
              (net_examples.fixed net_examples.no_route (inr net_examples.interfaces))
              tt (Err "dial udp 8.8.8.8:80: connect: network is unreachable") tt
              eq_refl) as [_ [_ Hscan]].
  destruct (Hscan net_examples.interfaces tt eq_refl) as [ip4 [H4 ->]].
  injection H4 as <-. reflexivity.
Defined.

(** *** A stable tree *)

(** X16.  For a directory of a tree that nothing changes during the
    request, the response is 200 with the HTML content type and the page of
    exactly the children of the directory, in their order, each with its
    escaped name and its directory flag. *)
Theorem tree_directory_is_listed build rootDir r root children :
  memfs.lookup root (fullPath rootDir (http.URL_Path r))
  = Some (memfs.Directory children) ->
  let out := resp (serve memfs.os build rootDir r root) in
  let data := listing (cleanedPath (http.URL_Path r)) (map memfs.entry children) in
  http.status out = 200
  /\ http.Header_Get "Content-Type" (http.header out) = Some "text/html; charset=utf-8"
  /\ http.written out = dirListTemplate build data
  /\ map (fun f => (Name f, IsDir f)) (Files data)
     = map (fun c => (html.EscapeString (fst c),
                      match snd c with
                      | memfs.Directory _ => true
                      | memfs.RegularFile _ => false
                      end)) children.
Proof.
  intros Hlookup out data. unfold out.
  set (path := fullPath rootDir (http.URL_Path r)) in *.
  set (node := (path, memfs.Directory children)).
  assert (Hopen : os_Open memfs.os path root = (inr node, root)).
  { cbn [os_Open memfs.os]. rewrite Hlookup. reflexivity. }
  assert (Hread : os_ReadDir memfs.os path root = (inr (map memfs.entry children), root)).
  { cbn [os_ReadDir memfs.os]. rewrite Hlookup. reflexivity. }
  rewrite (serve_listing memfs.os build rootDir r root node root (memfs.stat node) root
             (map memfs.entry children) root Hopen eq_refl eq_refl Hread).
  cbn [resp]. repeat split.
  unfold data. cbn [listing Files]. rewrite !map_map. reflexivity.
Qed.

Lemma tree_directory_is_listed_witness :
  let out := resp (serve memfs.os R1_EN "/srv/share" (GET "/docs/") share) in
  let data := listing "docs" [{| de_Name := "a:b"; de_IsDir := false |};
                              {| de_Name := "notes.txt"; de_IsDir := false |}] in
  http.status out = 200
  /\ http.Header_Get "Content-Type" (http.header out) = Some "text/html; charset=utf-8"
  /\ http.written out = dirListTemplate R1_EN data
  /\ map (fun f => (Name f, IsDir f)) (Files data)
     = [("a:b", false); ("notes.txt", false)].
Proof.
  apply (tree_directory_is_listed R1_EN "/srv/share" (GET "/docs/") share
           [("a:b", memfs.RegularFile "x");
            ("notes.txt", memfs.RegularFile "hello, world")]).
  reflexivity.
Defined.

(** X17.  For a path that names nothing in the tree, the response is 404
    with the not-found text, carries no file header, and the failed open is
    logged with the resolved path. *)
Theorem tree_missing_path_is_not_found build rootDir r root :
  memfs.lookup root (fullPath rootDir (http.URL_Path r)) = None ->
  let out := serve memfs.os build rootDir r root in
  http.status (resp out) = 404
  /\ http.written (resp out) = (not_found_text build ++ nl)%string
  /\ http.Header_Get "Content-Disposition" (http.header (resp out)) = None
  /\ In (LogOpenFailed
           (Err ("open " ++ fullPath rootDir (http.URL_Path r)
                 ++ ": no such file or directory")))
        (logged out).
Proof.
  intros Hlookup out. unfold out.
  set (path := fullPath rootDir (http.URL_Path r)) in *.
  assert (Hopen : os_Open memfs.os path root
                  = (inl (Err ("open " ++ path ++ ": no such file or directory")), root)).
  { cbn [os_Open memfs.os]. rewrite Hlookup. reflexivity. }
  rewrite (serve_open_failed memfs.os build rootDir r root _ root Hopen).
  cbn [resp logged]. repeat split.
  apply in_or_app; right; left; reflexivity.
Qed.

Lemma tree_missing_path_is_not_found_witness :
  let out := serve memfs.os R1_ZH "/srv/share" (GET "/docs/none.txt") share in
  http.status (resp out) = 404
  /\ http.written (resp out) = (not_found_text R1_ZH ++ nl)%string
  /\ http.Header_Get "Content-Disposition" (http.header (resp out)) = None
  /\ In (LogOpenFailed
           (Err "open /srv/share/docs/none.txt: no such file or directory"))
        (logged out).
Proof.
  apply (tree_missing_path_is_not_found R1_ZH "/srv/share" (GET "/docs/none.txt") share).
  reflexivity.
Defined.

(** *** The resolved path is a cleaned path *)

Lemma substring_all s : substring 0 (String.length s) s = s.
Proof.
  induction s as [| c s IH]; [reflexivity |].
  cbn [String.length substring]. rewrite IH. reflexivity.
Qed.

Lemma TrimPrefix_slash c : TrimPrefix (String "/"%char c) "/" = c.
Proof.
  unfold TrimPrefix. rewrite (prefix_cons "/" "" c), prefix_empty.
  cbn [String.length Nat.sub substring]. rewrite Nat.sub_0_r. apply substring_all.
Qed.

(** X10.  The resolved path is a cleaned path, and cleaning is repeatable:
    a request for the cleaned form of a path has the same cleaned path and
    resolves to the same file. *)
Theorem resolved_path_is_clean rootDir reqPath :
  filepath.Clean (fullPath rootDir reqPath) = fullPath rootDir reqPath
  /\ cleanedPath (String "/"%char (cleanedPath reqPath)) = cleanedPath reqPath
  /\ fullPath rootDir (String "/"%char (cleanedPath reqPath)) = fullPath rootDir reqPath.
Proof.
  assert (Hfix : cleanedPath (String "/"%char (cleanedPath reqPath)) = cleanedPath reqPath).
  { unfold cleanedPath at 1. rewrite TrimPrefix_slash.
    unfold cleanedPath. apply Clean_idempotent. }
  split; [| split; [exact Hfix | unfold fullPath; rewrite Hfix; reflexivity]].
  unfold fullPath. cbn [filepath.Join].
  destruct (rootDir =? ""); [| apply Clean_idempotent].
  unfold cleanedPath.
  rewrite (proj2 (String.eqb_neq _ _) (Clean_not_empty _)). apply Clean_idempotent.
Qed.

Section SamePath.

Context {W F : Type}.
Variable os : OS W F.
Variable build : Build.
Variable rootDir : string.
Variable w : W.

(** X18.  The response and the state of the world depend on the request
    only through its cleaned path: the method, repeated or trailing slashes
    and dot segments make no difference. *)
Theorem response_depends_on_cleaned_path r1 r2 :
  cleanedPath (http.URL_Path r1) = cleanedPath (http.URL_Path r2) ->
  resp (serve os build rootDir r1 w) = resp (serve os build rootDir r2 w)
  /\ world (serve os build rootDir r1 w) = world (serve os build rootDir r2 w).
Proof.
  intros Hclean.
  assert (Hfull : fullPath rootDir (http.URL_Path r2) = fullPath rootDir (http.URL_Path r1))
    by (unfold fullPath; rewrite Hclean; reflexivity).
  destruct (os_Open os (fullPath rootDir (http.URL_Path r1)) w)
    as [[err | file] w1] eqn:Hopen.
  { rewrite (serve_open_failed os build rootDir r1 w err w1 Hopen).
    rewrite <- Hfull in Hopen.
    rewrite (serve_open_failed os build rootDir r2 w err w1 Hopen).
    split; reflexivity. }
  destruct (file_Stat os file w1) as [[err | info] w2] eqn:Hstat.
  { rewrite (serve_stat_failed os build rootDir r1 w file w1 err w2 Hopen Hstat).
    rewrite <- Hfull in Hopen.
    rewrite (serve_stat_failed os build rootDir r2 w file w1 err w2 Hopen Hstat).
    split; reflexivity. }
  destruct (fi_IsDir info) eqn:Hdir.
  - destruct (os_ReadDir os (fullPath rootDir (http.URL_Path r1)) w2)
      as [[err | files] w3] eqn:Hread.
    + rewrite (serve_readdir_failed os build rootDir r1 w _ _ _ _ _ _ Hopen Hstat Hdir Hread).
      rewrite <- Hfull in Hopen, Hread.
      rewrite (serve_readdir_failed os build rootDir r2 w _ _ _ _ _ _ Hopen Hstat Hdir Hread).
      split; reflexivity.
    + rewrite (serve_listing os build rootDir r1 w _ _ _ _ _ _ Hopen Hstat Hdir Hread).
      rewrite <- Hfull in Hopen, Hread.
      rewrite (serve_listing os build rootDir r2 w _ _ _ _ _ _ Hopen Hstat Hdir Hread).
      cbn [resp world]. rewrite Hclean. split; reflexivity.
  - destruct (os_Open os (fullPath rootDir (http.URL_Path r1)) w2)
      as [[err | file'] w3] eqn:Hreopen.
    + rewrite (serve_reopen_failed os build rootDir r1 w _ _ _ _ _ _ Hopen Hstat Hdir Hreopen).
      rewrite <- Hfull in Hopen, Hreopen.
      rewrite (serve_reopen_failed os build rootDir r2 w _ _ _ _ _ _ Hopen Hstat Hdir Hreopen).
      split; reflexivity.
    + destruct (io_Copy os file' w3) as [[data failure] w4] eqn:Hcopy.
      rewrite (serve_file os build rootDir r1 w _ _ _ _ _ _ _ _ _
                 Hopen Hstat Hdir Hreopen Hcopy).
      rewrite <- Hfull in Hopen, Hreopen.
      rewrite (serve_file os build rootDir r2 w _ _ _ _ _ _ _ _ _
                 Hopen Hstat Hdir Hreopen Hcopy).
      split; reflexivity.
Qed.

End SamePath.

Lemma response_depends_on_cleaned_path_witness :
  resp (serve memfs.os R1_EN "/srv/share" (GET "/docs/./notes.txt") share)
  = resp (serve memfs.os R1_EN "/srv/share"
            {| http.Method := "DELETE"; http.URL_Path := "/docs//x/../notes.txt/" |}
            share)
  /\ world (serve memfs.os R1_EN "/srv/share" (GET "/docs/./notes.txt") share)
     = world (serve memfs.os R1_EN "/srv/share"
                {| http.Method := "DELETE"; http.URL_Path := "/docs//x/../notes.txt/" |}
                share).
Proof.
  apply (response_depends_on_cleaned_path memfs.os R1_EN "/srv/share" share).
  reflexivity.
Defined.
